(** * loggly: a process-local log shipping client (package [log], file log.go)

    The Go package keeps one process-wide [*logger], prints every processed
    event on standard output and ships it to Loggly over HTTP, either one
    request per event or batched through a mutex-guarded buffer.

    The embedding follows the source function by function.  Go statements
    that touch the process (the singleton pointer, the mutex, standard
    output, the clock, the network, [go], [os.Exit]) are events of a small
    command tree; the same tree is given two readings:
    - [run]: one goroutine executed to completion on a [world];
    - [Interleaving.step]: one event of one goroutine at a time, so that
      several goroutines share the logger the way the Go scheduler lets them.

    What the standard library computes ([json.Marshal], [http.Post],
    [time.Now().Format], the [fmt] verbs) is not part of the package and is a
    field of the class [Runtime]. *)

From Stdlib Require Import ZArith List String Ascii Bool Lia.
Import ListNotations.

Local Open Scope string_scope.
Local Open Scope Z_scope.

(* ================================================================== *)
(** ** Data model *)

(** [type Level int] and its five constants. *)
Definition Level : Type := Z.

Definition LogLevelDebug : Level := 0.
Definition LogLevelInfo  : Level := 1.
Definition LogLevelWarn  : Level := 2.
Definition LogLevelError : Level := 3.
Definition LogLevelFatal : Level := 4.

(** The dynamic values a caller can pass as [interface{}].  [VNil] is the nil
    interface; [VFunc] stands for the values [encoding/json] refuses. *)
#[warnings="-register-all"]
Inductive value : Type :=
| VNil
| VBool (b : bool)
| VInt (z : Z)
| VStr (s : string)
| VSlice (xs : list value)
| VMap (kvs : list (string * value))
| VFunc.

(** [type logMessage struct]; the JSON tags are timestamp, level, message and
    metadata.  [msgLevel] is the field [Level], a name the type above has
    taken. *)
Record logMessage : Type := mkMessage {
  Timestamp : string;
  msgLevel  : string;
  Message   : string;
  Metadata  : value
}.

(** [type logger struct].  [logLevel] is the field [Level]; [mu] is the
    embedded [sync.Mutex] ([true] when held); [flushInterval] is a
    [time.Duration], in nanoseconds. *)
Record logger : Type := mkLogger {
  token         : string;
  logLevel      : Level;
  url           : string;
  bulk          : bool;
  bufferSize    : Z;
  flushInterval : Z;
  buffer        : list logMessage;
  mu            : bool;
  tags          : list string;
  debugMode     : bool
}.

Definition set_url (u : string) (l : logger) : logger :=
  mkLogger (token l) (logLevel l) u (bulk l) (bufferSize l) (flushInterval l)
           (buffer l) (mu l) (tags l) (debugMode l).

Definition set_buffer (b : list logMessage) (l : logger) : logger :=
  mkLogger (token l) (logLevel l) (url l) (bulk l) (bufferSize l)
           (flushInterval l) b (mu l) (tags l) (debugMode l).

Definition set_mu (m : bool) (l : logger) : logger :=
  mkLogger (token l) (logLevel l) (url l) (bulk l) (bufferSize l)
           (flushInterval l) (buffer l) m (tags l) (debugMode l).

(** The four functions the package starts with [go]. *)
Inductive task : Type :=
| TStart
| TFlush
| THandleLogMessage (m : logMessage)
| THandleBulkLogMessage (m : logMessage).

(** [http.Post] returns [(resp *http.Response, err error)]. *)
Record Response : Type := mkResponse {
  StatusCode : Z;
  Status     : string
}.

Record postResult : Type := mkPost {
  post_resp : option Response;
  post_err  : option string
}.

(** [json.Marshal] returns [([]byte, error)]. *)
Inductive marshalled : Type :=
| Marshalled (b : string)
| MarshalError (err : string).

Record request : Type := mkRequest {
  req_url         : string;
  req_contentType : string;
  req_body        : string
}.

(** What lies outside the package. *)
Class Runtime : Type := {
  (** [time.Now().Format("2006-01-02T15:04:05.000Z")] at the n-th reading
      of the clock. *)
  time_Now_Format : nat -> string;
  (** [json.Marshal] on a [*logMessage]. *)
  json_Marshal : logMessage -> marshalled;
  (** the answer to the n-th [http.Post url contentType body]. *)
  http_Post : nat -> string -> string -> string -> postResult;
  (** [fmt.Sprintf format a...]. *)
  fmt_Sprintf : string -> list value -> string;
  (** the verb [%+v] on one operand. *)
  fmt_plus_v : value -> string
}.

Definition nl : string := String (ascii_of_nat 10) EmptyString.

(* ================================================================== *)
(** ** Commands *)

(** How a goroutine, or the process, stops before its last statement. *)
Inductive halt : Type :=
| Panicked            (* run-time panic; the process dies with it *)
| Exited (code : Z).  (* os.Exit(code) *)

Inductive event : Type -> Type :=
| GetSingleton : event (option logger)   (* read the pointer loggerSingleton *)
| SetSingleton (l : logger) : event unit (* loggerSingleton = &logger{...} *)
| WriteUrl (u : string) : event unit     (* loggerSingleton.url = u *)
| WriteBuffer (b : list logMessage) : event unit
                                         (* loggerSingleton.buffer = b *)
| Lock : event unit                      (* loggerSingleton.Lock() *)
| Unlock : event unit                    (* loggerSingleton.Unlock() *)
| Println (s : string) : event unit
| Printf (s : string) : event unit
| Now : event string
| Post (u contentType body : string) : event postResult
| Go (t : task) : event unit
| Sleep (d : Z) : event unit
| Panic : event Empty_set
| OsExit (code : Z) : event Empty_set.

Inductive prog (A : Type) : Type :=
| Ret (a : A)
| Vis {X : Type} (e : event X) (k : X -> prog A).

Arguments Ret {A} a.
Arguments Vis {A X} e k.

Fixpoint bind {A B : Type} (p : prog A) (f : A -> prog B) : prog B :=
  match p with
  | Ret a => f a
  | Vis e k => Vis e (fun x => bind (k x) f)
  end.

Definition trigger {X : Type} (e : event X) : prog X := Vis e Ret.

Definition panic {A : Type} : prog A :=
  Vis Panic (fun x : Empty_set => match x with end).

Definition os_Exit {A : Type} (code : Z) : prog A :=
  Vis (OsExit code) (fun x : Empty_set => match x with end).

(** [loggerSingleton.f]: a field read through the pointer, a nil-pointer
    dereference when the pointer is nil. *)
Definition field {X : Type} (f : logger -> X) : prog X :=
  Vis GetSingleton (fun p => match p with
                     | Some l => Ret (f l)
                     | None => panic
                     end).

Declare Scope prog_scope.
Delimit Scope prog_scope with prog.
Bind Scope prog_scope with prog.

Notation "x <- p ;; q" := (bind p (fun x => q))
  (at level 61, p at next level, right associativity) : prog_scope.
Notation "p ;; q" := (bind p (fun _ => q))
  (at level 61, right associativity) : prog_scope.

Local Open Scope prog_scope.

(* ================================================================== *)
(** ** The process state and the sequential reading *)

Record world : Type := mkWorld {
  loggerSingleton : option logger;   (* var loggerSingleton *logger *)
  stdout          : list string;     (* what was written, oldest first *)
  requests        : list request;    (* the POSTs issued, oldest first *)
  ticks           : nat;             (* readings of the clock so far *)
  goroutines      : list task        (* started with go, oldest first *)
}.

Definition set_singleton (p : option logger) (w : world) : world :=
  mkWorld p (stdout w) (requests w) (ticks w) (goroutines w).

Definition write_stdout (s : string) (w : world) : world :=
  mkWorld (loggerSingleton w) (stdout w ++ [s])%list (requests w) (ticks w)
          (goroutines w).

Definition sent (r : request) (w : world) : world :=
  mkWorld (loggerSingleton w) (stdout w) (requests w ++ [r])%list (ticks w)
          (goroutines w).

Definition tick (w : world) : world :=
  mkWorld (loggerSingleton w) (stdout w) (requests w) (S (ticks w))
          (goroutines w).

Definition started (t : task) (w : world) : world :=
  mkWorld (loggerSingleton w) (stdout w) (requests w) (ticks w)
          (goroutines w ++ [t])%list.

Inductive reply (X : Type) : Type :=
| Val (x : X)
| Halt (h : halt)
| Block.               (* Lock on a held mutex: the goroutine waits *)

Arguments Val {X} x.
Arguments Halt {X} h.
Arguments Block {X}.

Section Semantics.
Context {R : Runtime}.

(** Through the pointer: panics on nil. *)
Definition through {X : Type} (w : world)
           (f : logger -> reply X * world) : reply X * world :=
  match loggerSingleton w with
  | Some l => f l
  | None => (Halt Panicked, w)
  end.

Definition perform {X : Type} (e : event X) (w : world) : reply X * world :=
  match e in event T return reply T * world with
  | GetSingleton => (Val (loggerSingleton w), w)
  | SetSingleton l => (Val tt, set_singleton (Some l) w)
  | WriteUrl u =>
      through w (fun l => (Val tt, set_singleton (Some (set_url u l)) w))
  | WriteBuffer b =>
      through w (fun l => (Val tt, set_singleton (Some (set_buffer b l)) w))
  | Lock =>
      through w (fun l =>
        if mu l then (Block, w)
        else (Val tt, set_singleton (Some (set_mu true l)) w))
  | Unlock =>
      through w (fun l =>
        if mu l then (Val tt, set_singleton (Some (set_mu false l)) w)
        else (Halt Panicked, w))   (* unlock of unlocked mutex *)
  | Println s => (Val tt, write_stdout (s ++ nl) w)
  | Printf s => (Val tt, write_stdout s w)
  | Now => (Val (time_Now_Format (ticks w)), tick w)
  | Post u ct b =>
      (Val (http_Post (List.length (requests w)) u ct b),
       sent (mkRequest u ct b) w)
  | Go t => (Val tt, started t w)
  | Sleep _ => (Val tt, w)
  | Panic => (Halt Panicked, w)
  | OsExit c => (Halt (Exited c), w)
  end.

(** One goroutine run to its end with no other goroutine scheduled. *)
Inductive outcome (A : Type) : Type :=
| Done (a : A)
| Halted (h : halt)
| Blocked.

Fixpoint run {A : Type} (p : prog A) (w : world) : outcome A * world :=
  match p with
  | Ret a => (Done _ a, w)
  | Vis e k =>
      match perform e w with
      | (Val x, w') => run (k x) w'
      | (Halt h, w') => (Halted _ h, w')
      | (Block, w') => (Blocked _, w')
      end
  end.

End Semantics.

Arguments Done {A} a.
Arguments Halted {A} h.
Arguments Blocked {A}.

(* ================================================================== *)
(** ** The package, function by function *)

Section Package.
Context {R : Runtime}.

(** [func tagList() string]: [strings.Join(loggerSingleton.tags, ",")]. *)
Definition tagList : prog string :=
  ts <- field tags ;;
  Ret (String.concat "," ts).

Definition Second : Z := 1000000000.

(** [func SetupLogger(token, level, tags, bulk, debugMode)]. *)
Definition SetupLogger (token : string) (level : Level) (tags : list string)
           (bulk debugMode : bool) : prog unit :=
  p <- trigger GetSingleton ;;
  match p with
  | Some _ => Ret tt
  | None =>
      trigger (SetSingleton (mkLogger token level "" bulk 1000 (10 * Second)
                               [] false tags debugMode)) ;;
      if bulk then
        t <- tagList ;;
        trigger (WriteUrl ("https://logs-01.loggly.com/bulk/" ++ token
                             ++ "/tag/" ++ t ++ "/")) ;;
        trigger (Go TStart)
      else
        t <- tagList ;;
        trigger (WriteUrl ("https://logs-01.loggly.com/inputs/" ++ token
                             ++ "/tag/" ++ t ++ "/"))
  end.

(** [func newMessage(timestamp, level, message string, data ...interface{})]:
    the variadic [data] is a slice, and it is the slice that is stored. *)
Definition newMessage (timestamp level message : string)
           (data : list value) : logMessage :=
  mkMessage timestamp level message (VSlice data).

(** [func ship(message *logMessage)]. *)
Definition ship (message : logMessage) : prog unit :=
  b <- field bulk ;;
  if b then trigger (Go (THandleBulkLogMessage message))
  else trigger (Go (THandleLogMessage message)).

(** [d == nil] on an [interface{}]. *)
Definition is_nil (d : value) : bool :=
  match d with VNil => true | _ => false end.

(** [func buildAndShipMessage(output, messageType string, exit bool,
    d interface{})]. *)
Definition buildAndShipMessage (output messageType : string) (exit : bool)
           (d : value) : prog unit :=
  lv <- field logLevel ;;
  if lv >? LogLevelDebug then Ret tt
  else
    ts <- trigger Now ;;
    let formattedOutput :=
      if is_nil d
      then ts ++ " [" ++ messageType ++ "] " ++ output
      else ts ++ " [" ++ messageType ++ "] " ++ output ++ " "
              ++ fmt_plus_v d in
    trigger (Println formattedOutput) ;;
    ts' <- trigger Now ;;
    let message := newMessage ts' messageType output [VNil] in
    ship message ;;
    if exit then os_Exit 1 else Ret tt.

(** The public entry points. *)
Definition Stdln (output : string) : prog unit := trigger (Println output).
Definition Stdf (format : string) (a : list value) : prog unit :=
  trigger (Printf (fmt_Sprintf format a)).

Definition Debugd (output : string) (d : value) : prog unit :=
  buildAndShipMessage output "DEBUG" false d.
Definition Debugln (output : string) : prog unit := Debugd output VNil.
Definition Debugf (format : string) (a : list value) : prog unit :=
  Debugln (fmt_Sprintf format a).

Definition Infod (output : string) (d : value) : prog unit :=
  buildAndShipMessage output "INFO" false d.
Definition Infoln (output : string) : prog unit := Infod output VNil.
Definition Infof (format : string) (a : list value) : prog unit :=
  Infoln (fmt_Sprintf format a).

Definition Warnd (output : string) (d : value) : prog unit :=
  buildAndShipMessage output "WARN" false d.
Definition Warnln (output : string) : prog unit := Warnd output VNil.
Definition Warnf (format : string) (a : list value) : prog unit :=
  Warnln (fmt_Sprintf format a).

Definition Errord (output : string) (d : value) : prog unit :=
  buildAndShipMessage output "ERROR" false d.
Definition Errorln (output : string) : prog unit := Errord output VNil.
Definition Errorf (format : string) (a : list value) : prog unit :=
  Errorln (fmt_Sprintf format a).

Definition Fatald (output : string) (d : value) : prog unit :=
  buildAndShipMessage output "FATAL" true d.
Definition Fatalln (output : string) : prog unit := Fatald output VNil.
Definition Fatalf (format : string) (a : list value) : prog unit :=
  Fatalln (fmt_Sprintf format a).

(** [if loggerSingleton.debugMode { fmt.Println(...) }] and its [Printf]
    twin. *)
Definition debugPrintln (s : string) : prog unit :=
  dm <- field debugMode ;;
  if dm then trigger (Println s) else Ret tt.

Definition debugPrintf (s : string) : prog unit :=
  dm <- field debugMode ;;
  if dm then trigger (Printf s) else Ret tt.

(** [func handleLogMessage(message *logMessage)].  [defer
    resp.Body.Close()] reads through [resp]. *)
Definition handleLogMessage (message : logMessage) : prog unit :=
  match json_Marshal message with
  | MarshalError err =>
      trigger (Printf ("There was an error marshalling log message: "
                         ++ err))
  | Marshalled requestBody =>
      u <- field url ;;
      r <- trigger (Post u "text/plain" requestBody) ;;
      match post_err r with
      | Some err =>
          debugPrintf ("There was an error shipping the logs to loggy: "
                         ++ err)
      | None =>
          match post_resp r with
          | None => panic
          | Some resp =>
              (if StatusCode resp =? 403
               then debugPrintln ("Token is invalid " ++ Status resp)
               else Ret tt) ;;
              (if StatusCode resp =? 200
               then debugPrintln ("Log was shipped successfully "
                                    ++ Status resp)
               else Ret tt)
          end
      end
  end.

(** [func handleBulkLogMessage(message *logMessage)]. *)
Definition handleBulkLogMessage (message : logMessage) : prog unit :=
  trigger Lock ;;
  b <- field buffer ;;
  trigger (WriteBuffer (b ++ [message])%list) ;;
  b' <- field buffer ;;
  let count := Z.of_nat (List.length b') in
  trigger Unlock ;;
  size <- field bufferSize ;;
  if count >=? size then trigger (Go TFlush) else Ret tt.

(** The loop of [formatBulkMessage]: [range] over the slice read once. *)
Fixpoint formatLoop (ms : list logMessage) (output : string) : prog string :=
  match ms with
  | [] => Ret output
  | m :: rest =>
      match json_Marshal m with
      | MarshalError err =>
          trigger (Printf ("There was an error marshalling buffer message: "
                             ++ err)) ;;
          formatLoop rest output
      | Marshalled b => formatLoop rest (output ++ b ++ nl)
      end
  end.

(** [func formatBulkMessage() string]; the deferred [Unlock] runs when the
    function returns. *)
Definition formatBulkMessage : prog string :=
  trigger Lock ;;
  ms <- field buffer ;;
  output <- formatLoop ms "" ;;
  trigger Unlock ;;
  Ret output.

(** [func flush()].  [resp.StatusCode] is read before [err] is looked at. *)
Definition flush : prog unit :=
  body <- formatBulkMessage ;;
  trigger (WriteBuffer []) ;;
  u <- field url ;;
  r <- trigger (Post u "text/plain" body) ;;
  match post_resp r with
  | None => panic
  | Some resp =>
      (if StatusCode resp =? 403
       then debugPrintln ("Token is invalid " ++ Status resp)
       else Ret tt) ;;
      (if StatusCode resp =? 200
       then debugPrintln ("Logs were shipped successfully " ++ Status resp)
       else Ret tt) ;;
      match post_err r with
      | Some err =>
          debugPrintf ("There was an error shipping the bulk logs to loggy: "
                         ++ err)
      | None => Ret tt
      end
  end.

(** One turn of the loop of [func start()]: [for { time.Sleep(...); go
    flush() }]. *)
Definition startTurn : prog unit :=
  d <- field flushInterval ;;
  trigger (Sleep d) ;;
  trigger (Go TFlush).

(** The code of a started goroutine.  The endless loop of [start] goes on
    as itself after each turn. *)
Definition body (t : task) : prog unit :=
  match t with
  | TStart => startTurn ;; trigger (Go TStart)
  | TFlush => flush
  | THandleLogMessage m => handleLogMessage m
  | THandleBulkLogMessage m => handleBulkLogMessage m
  end.

End Package.

(* ================================================================== *)
(** ** The interleaved reading *)

Module Interleaving.
Section WithRuntime.
Context {R : Runtime}.

(** The goroutines that are live, the state they share, and who is between
    its [Lock] and its [Unlock] ([holder], which the Go mutex itself does
    not record). *)
Record config : Type := mkConfig {
  shared  : world;
  threads : list (prog unit);
  holder  : option nat;
  dead    : option halt
}.

Definition holder_after {X : Type} (e : event X) (i : nat)
           (h : option nat) : option nat :=
  match e with
  | Lock => Some i
  | Unlock => None
  | _ => h
  end.

Fixpoint replace {A : Type} (i : nat) (x : A) (l : list A) : list A :=
  match l, i with
  | [], _ => []
  | _ :: t, O => x :: t
  | y :: t, S j => y :: replace j x t
  end.

(** Goroutine [i] performs its next event.  [None]: there is no such
    goroutine, it has returned, it waits for the mutex, or the process is
    dead.  A goroutine started by the event joins the pool with its code. *)
Definition step (i : nat) (c : config) : option config :=
  match dead c with
  | Some _ => None
  | None =>
      match nth_error (threads c) i with
      | None | Some (Ret _) => None
      | Some (Vis e k) =>
          match perform e (shared c) with
          | (Val x, w') =>
              let fresh :=
                skipn (List.length (goroutines (shared c))) (goroutines w') in
              Some (mkConfig w'
                      (replace i (k x) (threads c) ++ map body fresh)%list
                      (holder_after e i (holder c)) None)
          | (Halt h, w') =>
              Some (mkConfig w' (threads c) (holder c) (Some h))
          | (Block, _) => None
          end
      end
  end.

(** A schedule names the goroutine that moves at each step. *)
Fixpoint exec (schedule : list nat) (c : config) : option config :=
  match schedule with
  | [] => Some c
  | i :: rest =>
      match step i c with
      | Some c' => exec rest c'
      | None => None
      end
  end.

(** Goroutine [i] is about to assign [loggerSingleton.buffer]. *)
Definition writes_buffer (p : prog unit) : bool :=
  match p with
  | Vis (WriteBuffer _) _ => true
  | _ => false
  end.

Definition about_to_write (i : nat) (c : config) : bool :=
  match nth_error (threads c) i with
  | Some p => writes_buffer p
  | None => false
  end.

Definition holds_guard (i : nat) (c : config) : bool :=
  match holder c with
  | Some j => Nat.eqb i j
  | None => false
  end.

Definition returned (i : nat) (c : config) : bool :=
  match nth_error (threads c) i with
  | Some (Ret _) => true
  | _ => false
  end.

(** The bodies of the POSTs issued so far. *)
Definition payloads (c : config) : list string :=
  map req_body (requests (shared c)).

Definition buffered (c : config) : list logMessage :=
  match loggerSingleton (shared c) with
  | Some l => buffer l
  | None => []
  end.

End WithRuntime.
End Interleaving.

(* ================================================================== *)
(** ** Sample runtimes and states *)

(** Runtimes to evaluate the package on: a fixed clock reading, records
    encoded by their message text, and a server that answers 200 to every
    request ([runtime]) or a network that gives no response ([offline]). *)
Module Sample.

Definition ok : postResult := mkPost (Some (mkResponse 200 "200 OK")) None.
Definition refused : postResult := mkPost None (Some "connection refused").

Definition encode (m : logMessage) : marshalled :=
  match Metadata m with
  | VFunc => MarshalError "json: unsupported type"
  | _ => Marshalled (Message m)
  end.

Definition runtime : Runtime := {|
  time_Now_Format := fun _ => "2006-01-02T15:04:05.000Z";
  json_Marshal := encode;
  http_Post := fun _ _ _ _ => ok;
  fmt_Sprintf := fun format _ => format;
  fmt_plus_v := fun _ => "{}"
|}.

Definition offline : Runtime := {|
  time_Now_Format := fun _ => "2006-01-02T15:04:05.000Z";
  json_Marshal := encode;
  http_Post := fun _ _ _ _ => refused;
  fmt_Sprintf := fun format _ => format;
  fmt_plus_v := fun _ => "{}"
|}.

(** The process before [SetupLogger]. *)
Definition fresh : world := mkWorld None [] [] 0 [].

(** The process after [SetupLogger "abc" level ["svc"] false true] and after
    [SetupLogger "abc" level ["svc"] true true]. *)
Definition single (level : Level) : logger :=
  mkLogger "abc" level "https://logs-01.loggly.com/inputs/abc/tag/svc/"
           false 1000 (10 * Second) [] false ["svc"] true.

Definition batch (level : Level) : logger :=
  mkLogger "abc" level "https://logs-01.loggly.com/bulk/abc/tag/svc/"
           true 1000 (10 * Second) [] false ["svc"] true.

Definition singleMode (level : Level) : world :=
  mkWorld (Some (single level)) [] [] 0 [].

Definition bulkMode (level : Level) : world :=
  mkWorld (Some (batch level)) [] [] 0 [TStart].

Definition msg (text : string) : logMessage :=
  mkMessage "2006-01-02T15:04:05.000Z" "INFO" text (VSlice [VNil]).

End Sample.

(* ================================================================== *)
(** ** Vocabulary of the statements *)

(** The five severities of the entry points, for stating properties over
    a call of level L. *)
Inductive severity : Type := DEBUG | INFO | WARN | ERROR | FATAL.

Definition levelOf (s : severity) : Level :=
  match s with
  | DEBUG => LogLevelDebug
  | INFO => LogLevelInfo
  | WARN => LogLevelWarn
  | ERROR => LogLevelError
  | FATAL => LogLevelFatal
  end.

(** The endpoint [SetupLogger] derives. *)
Definition endpoint (token : string) (tags : list string) (bulk : bool)
  : string :=
  if bulk
  then "https://logs-01.loggly.com/bulk/" ++ token ++ "/tag/"
         ++ String.concat "," tags ++ "/"
  else "https://logs-01.loggly.com/inputs/" ++ token ++ "/tag/"
         ++ String.concat "," tags ++ "/".

(** The logger [SetupLogger token level tags true debugMode] builds. *)
Definition bulkLogger (token : string) (level : Level) (tags : list string)
           (debugMode : bool) : logger :=
  mkLogger token level (endpoint token tags true) true 1000 (10 * Second)
           [] false tags debugMode.

(** The goroutine [ship] starts. *)
Definition shipped (l : logger) (m : logMessage) : task :=
  if bulk l then THandleBulkLogMessage m else THandleLogMessage m.

Section Vocabulary.
Context {R : Runtime}.

(** The entry point with a data argument for each severity. *)
Definition logd (s : severity) : string -> value -> prog unit :=
  match s with
  | DEBUG => Debugd
  | INFO => Infod
  | WARN => Warnd
  | ERROR => Errord
  | FATAL => Fatald
  end.

(** The fifteen leveled entry points. *)
Definition leveledCalls (output format : string) (a : list value)
           (d : value) : list (prog unit) :=
  [ Debugln output; Debugd output d; Debugf format a;
    Infoln output;  Infod output d;  Infof format a;
    Warnln output;  Warnd output d;  Warnf format a;
    Errorln output; Errord output d; Errorf format a;
    Fatalln output; Fatald output d; Fatalf format a ].

(** The line printed for a processed call. *)
Definition echoLine (ts messageType output : string) (d : value) : string :=
  if is_nil d
  then ts ++ " [" ++ messageType ++ "] " ++ output
  else ts ++ " [" ++ messageType ++ "] " ++ output ++ " " ++ fmt_plus_v d.

(** The world after a processed call: one line echoed, two clock readings,
    one goroutine started. *)
Definition processed (l : logger) (w : world)
           (output messageType : string) (d : value) : world :=
  started
    (shipped l (mkMessage (time_Now_Format (S (ticks w))) messageType output
                          (VSlice [VNil])))
    (tick (write_stdout
             (echoLine (time_Now_Format (ticks w)) messageType output d ++ nl)
             (tick w))).

(** What the loop of [formatBulkMessage] returns, and what it prints. *)
Fixpoint bulkBody (ms : list logMessage) (output : string) : string :=
  match ms with
  | [] => output
  | m :: rest =>
      match json_Marshal m with
      | MarshalError _ => bulkBody rest output
      | Marshalled b => bulkBody rest (output ++ b ++ nl)
      end
  end.

Fixpoint bulkComplaints (ms : list logMessage) : list string :=
  match ms with
  | [] => []
  | m :: rest =>
      match json_Marshal m with
      | MarshalError err =>
          ("There was an error marshalling buffer message: " ++ err)%string
            :: bulkComplaints rest
      | Marshalled _ => bulkComplaints rest
      end
  end.

Definition complained (ms : list logMessage) (w : world) : world :=
  mkWorld (loggerSingleton w) (stdout w ++ bulkComplaints ms)%list
          (requests w) (ticks w) (goroutines w).

(** The line a record contributes to a batch. *)
Definition wireLine (m : logMessage) : string :=
  match json_Marshal m with
  | Marshalled b => b ++ nl
  | MarshalError _ => ""
  end.

(** What [flush] does once [http.Post] has answered. *)
Definition flushReport (r : postResult) : prog unit :=
  match post_resp r with
  | None => panic
  | Some resp =>
      (if StatusCode resp =? 403
       then debugPrintln ("Token is invalid " ++ Status resp)
       else Ret tt) ;;
      (if StatusCode resp =? 200
       then debugPrintln ("Logs were shipped successfully " ++ Status resp)
       else Ret tt) ;;
      match post_err r with
      | Some err =>
          debugPrintf ("There was an error shipping the bulk logs to loggy: "
                         ++ err)
      | None => Ret tt
      end
  end.

(** The request of a flush cycle. *)
Definition flushRequest (l : logger) : request :=
  mkRequest (url l) "text/plain" (bulkBody (buffer l) "").

(** The append goroutines of the records [ms], one after another in this
    order; [ship] starts one per processed call. *)
Fixpoint appendEach (ms : list logMessage) : prog unit :=
  match ms with
  | [] => Ret tt
  | m :: rest => handleBulkLogMessage m ;; appendEach rest
  end.

(** The flushes started by [n] appends to a buffer that already holds
    [have] records. *)
Fixpoint sizeTriggers (size : Z) (have n : nat) : list task :=
  match n with
  | O => []
  | S n' =>
      ((if Z.of_nat (S have) >=? size then [TFlush] else [])
         ++ sizeTriggers size (S have) n')%list
  end.

(** The world after the appends of [ms]. *)
Definition appended (l : logger) (w : world) (ms : list logMessage)
  : world :=
  mkWorld (Some (set_buffer (buffer l ++ ms) l)) (stdout w) (requests w)
          (ticks w)
          (goroutines w
             ++ sizeTriggers (bufferSize l) (List.length (buffer l))
                             (List.length ms))%list.

(** A flush cycle (goroutine 0) and the append of [m] (goroutine 1), both
    started, neither yet run. *)
Definition racing (l : logger) (m : logMessage) : Interleaving.config :=
  Interleaving.mkConfig (mkWorld (Some l) [] [] 0 [TStart])
                        [flush; handleBulkLogMessage m] None None.

End Vocabulary.

(** The statement of C5 as the spec words it: a flush cycle that drains no
    record issues no request. *)
Definition empty_flush_is_silent : Prop :=
  forall (R : Runtime) (w : world) (l : logger),
    loggerSingleton w = Some l ->
    mu l = false ->
    buffer l = [] ->
    requests (snd (run flush w)) = requests w.

(* ================================================================== *)
(** ** Calls, appends and the order of a batch *)

Section CallOrder.
Context {R : Runtime}.

(** One caller making the calls [Infoln o], for [o] in [outputs], one after
    another. *)
Fixpoint callEach (outputs : list string) : prog unit :=
  match outputs with
  | [] => Ret tt
  | o :: rest => Infoln o ;; callEach rest
  end.

(** The records those calls build, in call order, on a clock read [t]
    times so far: each processed call reads the clock twice and keeps the
    second reading. *)
Fixpoint recordsFrom (t : nat) (outputs : list string) : list logMessage :=
  match outputs with
  | [] => []
  | o :: rest =>
      mkMessage (time_Now_Format (S t)) "INFO" o (VSlice [VNil])
        :: recordsFrom (S (S t)) rest
  end.

End CallOrder.

(** Every goroutine of the pool has returned. *)
Definition allReturned (c : Interleaving.config) : bool :=
  forallb (fun p : prog unit => match p with Ret _ => true | _ => false end)
          (Interleaving.threads c).

(** The configuration a schedule leads to; the dead empty process when the
    schedule cannot be followed. *)
Definition reached (o : option Interleaving.config) : Interleaving.config :=
  match o with
  | Some c => c
  | None => Interleaving.mkConfig (mkWorld None [] [] 0 []) [] None
                                  (Some Panicked)
  end.

(** The caller (goroutine 0) makes three calls, 18 events; then the append
    of the third call (goroutine 3) runs, then those of the first and of
    the second, 6 events each. *)
Definition thirdAppendFirst : list nat :=
  (repeat 0%nat 18 ++ repeat 3%nat 6 ++ repeat 1%nat 6 ++ repeat 2%nat 6)%list.

(** The statement of C9 as the spec words it, with the order of the calls:
    in bulk mode, once the calls and the appends they started have all
    returned, under whatever schedule, a flush cycle ships the records of
    the calls in call order. *)
Definition batch_follows_call_order : Prop :=
  forall (R : Runtime) (w : world) (l : logger) (outputs : list string)
         (schedule : list nat) (c : Interleaving.config),
    loggerSingleton w = Some l ->
    bulk l = true ->
    mu l = false ->
    buffer l = [] ->
    logLevel l <= LogLevelDebug ->
    Z.of_nat (List.length outputs) < bufferSize l ->
    Interleaving.exec schedule
      (Interleaving.mkConfig w [callEach outputs] None None) = Some c ->
    allReturned c = true ->
    map req_body (requests (snd (run flush (Interleaving.shared c))))
    = (map req_body (requests w)
         ++ [String.concat ""
               (map wireLine (recordsFrom (ticks w) outputs))])%list.

(* ================================================================== *)
(** ** Vocabulary of the statements on the rest of the package *)

(** The tag each family of entry points passes as [messageType]. *)
Definition levelName (s : severity) : string :=
  match s with
  | DEBUG => "DEBUG"
  | INFO => "INFO"
  | WARN => "WARN"
  | ERROR => "ERROR"
  | FATAL => "FATAL"
  end.

(** What the two status tests print, [okText] being the text of the 200
    branch. *)
Definition statusLines (okText : string) (debugMode : bool) (resp : Response)
  : list string :=
  if debugMode
  then ((if StatusCode resp =? 403
         then [(("Token is invalid " ++ Status resp) ++ nl)%string] else [])
          ++ (if StatusCode resp =? 200
              then [((okText ++ Status resp) ++ nl)%string] else []))%list
  else [].

(** What [flush] prints after the POST, given its response. *)
Definition flushLines (debugMode : bool) (r : postResult) (resp : Response)
  : list string :=
  (statusLines "Logs were shipped successfully " debugMode resp
     ++ match post_err r with
        | Some err =>
            if debugMode
            then [("There was an error shipping the bulk logs to loggy: "
                     ++ err)%string]
            else []
        | None => []
        end)%list.

Section MoreVocabulary.
Context {R : Runtime}.

(** The record a processed call builds: the second reading of the clock,
    the tag of the entry point, the message, and the slice holding nil. *)
Definition recordOf (w : world) (s : severity) (output : string)
  : logMessage :=
  mkMessage (time_Now_Format (S (ticks w))) (levelName s) output
            (VSlice [VNil]).

(** [n] turns of the loop of [start], each followed by the flush it starts,
    with nothing else scheduled. *)
Fixpoint idleTurns (n : nat) : prog unit :=
  match n with
  | O => Ret tt
  | S n' => startTurn ;; flush ;; idleTurns n'
  end.

(** Two goroutines appending [m1] and [m2]. *)
Definition appending (l : logger) (m1 m2 : logMessage)
  : Interleaving.config :=
  Interleaving.mkConfig (mkWorld (Some l) [] [] 0 [TStart])
                        [handleBulkLogMessage m1; handleBulkLogMessage m2]
                        None None.

(** Two flush cycles on a buffer holding [m]. *)
Definition draining (l : logger) (m : logMessage) : Interleaving.config :=
  Interleaving.mkConfig (mkWorld (Some (set_buffer [m] l)) [] [] 0 [TStart])
                        [flush; flush] None None.

(** Two first calls of [SetupLogger] in bulk mode on an unconfigured
    process. *)
Definition configuring (token1 : string) (level1 : Level)
           (tags1 : list string) (debug1 : bool)
           (token2 : string) (level2 : Level)
           (tags2 : list string) (debug2 : bool) : Interleaving.config :=
  Interleaving.mkConfig (mkWorld None [] [] 0 [])
                        [SetupLogger token1 level1 tags1 true debug1;
                         SetupLogger token2 level2 tags2 true debug2]
                        None None.

(** The configurations one step away, and [n] steps away. *)
Definition successors (c : Interleaving.config) : list Interleaving.config :=
  flat_map (fun i => match Interleaving.step i c with
                     | Some c' => [c']
                     | None => []
                     end)
           (seq 0 (List.length (Interleaving.threads c))).

Fixpoint frontier (n : nat) (c : Interleaving.config)
  : list Interleaving.config :=
  match n with
  | O => [c]
  | S n' => flat_map (frontier n') (successors c)
  end.

(** What is looked at once both appends have returned. *)
Definition appendsView (c : Interleaving.config)
  : bool * bool * list logMessage * option nat :=
  (Interleaving.returned 0 c, Interleaving.returned 1 c,
   Interleaving.buffered c, Interleaving.holder c).

End MoreVocabulary.

(** What must hold of a configuration once both appends have returned. *)
Definition bothKept (m1 m2 : logMessage)
           (v : bool * bool * list logMessage * option nat) : Prop :=
  let '(r0, r1, buf, h) := v in
  r0 = true -> r1 = true ->
  (buf = [m1; m2] \/ buf = [m2; m1]) /\ h = None.

(** Replace the views of a frontier by their computed value. *)
Ltac frontier_by_computation :=
  match goal with
  | |- Forall _ (map appendsView (frontier ?k ?c0)) =>
      let l := eval vm_compute in (map appendsView (frontier k c0)) in
      replace (map appendsView (frontier k c0)) with l
        by (vm_compute; reflexivity)
  end.

(** Replace the first run of a chain of schedules by its computed value. *)
Ltac exec_by_computation :=
  match goal with
  | |- context [match @Interleaving.exec ?R ?s ?c with _ => _ end] =>
      let v := eval vm_compute in (@Interleaving.exec R s c) in
      replace (@Interleaving.exec R s c) with v by (vm_compute; reflexivity);
      cbv beta iota
  end.

(** A world whose singleton is known: expose the record so that [run]
    computes. *)
Ltac configured w H :=
  let p := fresh "p" in
  destruct w as [p ? ? ? ?]; simpl in H; subst p.

(* ================================================================== *)
(** ** Running programs: general facts *)

Section RunFacts.
Context {R : Runtime}.

Lemma run_bind {A B : Type} (p : prog A) (f : A -> prog B) (w : world) :
  run (bind p f) w =
  match run p w with
  | (Done a, w') => run (f a) w'
  | (Halted h, w') => (Halted h, w')
  | (Blocked, w') => (Blocked, w')
  end.
Proof.
  revert w.
  induction p as [a | X e k IH]; intro w; simpl.
  - reflexivity.
  - destruct (perform e w) as [[x | h | ] w']; auto.
Qed.

Lemma run_field {X B : Type} (f : logger -> X) (k : X -> prog B)
      (w : world) (l : logger) :
  loggerSingleton w = Some l ->
  run (bind (field f) k) w = run (k (f l)) w.
Proof. intro H. simpl. rewrite H. reflexivity. Qed.

Lemma run_field_nil {X B : Type} (f : logger -> X) (k : X -> prog B)
      (w : world) :
  loggerSingleton w = None ->
  run (bind (field f) k) w = (Halted Panicked, w).
Proof. intro H. simpl. rewrite H. reflexivity. Qed.

Lemma set_mu_release (l : logger) :
  mu l = false -> set_mu false (set_mu true l) = l.
Proof. destruct l; simpl; intros ->; reflexivity. Qed.

Lemma set_buffer_same (l : logger) : set_buffer (buffer l) l = l.
Proof. destruct l; reflexivity. Qed.

End RunFacts.

Lemma string_app_assoc (a b c : string) :
  ((a ++ b) ++ c)%string = (a ++ b ++ c)%string.
Proof. induction a as [| x a IH]; simpl; [reflexivity | now rewrite IH]. Qed.

Lemma string_app_empty_r (a : string) : (a ++ "")%string = a.
Proof. induction a as [| x a IH]; simpl; [reflexivity | now rewrite IH]. Qed.

Lemma concat_empty_cons (x : string) (xs : list string) :
  String.concat "" (x :: xs) = (x ++ String.concat "" xs)%string.
Proof.
  simpl. destruct xs; simpl; [now rewrite string_app_empty_r | reflexivity].
Qed.

(** The sample states are the ones [SetupLogger] builds. *)
Example singleMode_is_setup (level : Level) :
  run (R := Sample.runtime) (SetupLogger "abc" level ["svc"] false true)
      Sample.fresh
  = (Done tt, Sample.singleMode level).
Proof. reflexivity. Qed.

Example bulkMode_is_setup (level : Level) :
  run (R := Sample.runtime) (SetupLogger "abc" level ["svc"] true true)
      Sample.fresh
  = (Done tt, Sample.bulkMode level).
Proof. reflexivity. Qed.

(* ================================================================== *)
(** ** Configuration *)

Section Configuration.
Context {R : Runtime}.

Lemma SetupLogger_fresh (w : world) token level tags bulk debugMode :
  loggerSingleton w = None ->
  run (SetupLogger token level tags bulk debugMode) w =
  (Done tt,
   mkWorld (Some (mkLogger token level (endpoint token tags bulk) bulk 1000
                           (10 * Second) [] false tags debugMode))
           (stdout w) (requests w) (ticks w)
           (if bulk then goroutines w ++ [TStart] else goroutines w)%list).
Proof.
  intro H. configured w H.
  destruct bulk; reflexivity.
Qed.

Lemma SetupLogger_configured (w : world) (l : logger)
      token level tags bulk debugMode :
  loggerSingleton w = Some l ->
  run (SetupLogger token level tags bulk debugMode) w = (Done tt, w).
Proof. intro H. configured w H. reflexivity. Qed.

(** C8.  The first [SetupLogger] on an unconfigured process installs the
    logger built from its own arguments, with the endpoint derived from its
    own token; a second call, whatever its arguments, returns at once and
    leaves the whole process state as the first call left it. *)
Theorem SetupLogger_first_writer_wins
        (w : world)
        (token1 : string) (level1 : Level) (tags1 : list string)
        (bulk1 debug1 : bool)
        (token2 : string) (level2 : Level) (tags2 : list string)
        (bulk2 debug2 : bool) :
  loggerSingleton w = None ->
  let w1 := snd (run (SetupLogger token1 level1 tags1 bulk1 debug1) w) in
  loggerSingleton w1 =
    Some (mkLogger token1 level1 (endpoint token1 tags1 bulk1) bulk1 1000
                   (10 * Second) [] false tags1 debug1)
  /\ run (SetupLogger token2 level2 tags2 bulk2 debug2) w1 = (Done tt, w1).
Proof.
  intros H w1. subst w1.
  rewrite (SetupLogger_fresh _ _ _ _ _ _ H).
  cbn [snd]. split; [reflexivity|].
  eapply SetupLogger_configured. reflexivity.
Qed.

End Configuration.

Lemma first_setup_wins_on_sample :
  loggerSingleton Sample.fresh = None
  /\ let w1 := snd (run (R := Sample.runtime)
                        (SetupLogger "abc" LogLevelInfo ["svc"] false true)
                        Sample.fresh) in
     loggerSingleton w1 =
       Some (mkLogger "abc" LogLevelInfo
                      "https://logs-01.loggly.com/inputs/abc/tag/svc/" false
                      1000 (10 * Second) [] false ["svc"] true)
     /\ run (R := Sample.runtime)
            (SetupLogger "xyz" LogLevelDebug ["other"] true false) w1
        = (Done tt, w1).
Proof.
  split; [reflexivity|].
  apply (@SetupLogger_first_writer_wins Sample.runtime Sample.fresh
           "abc" LogLevelInfo ["svc"] false true
           "xyz" LogLevelDebug ["other"] true false).
  reflexivity.
Defined.

(* ================================================================== *)
(** ** The leveled entry points *)

Section Facade.
Context {R : Runtime}.

Lemma buildAndShipMessage_dropped (w : world) (l : logger)
      (output messageType : string) (exit : bool) (d : value) :
  loggerSingleton w = Some l ->
  logLevel l > LogLevelDebug ->
  run (buildAndShipMessage output messageType exit d) w = (Done tt, w).
Proof.
  intros H Hlv. unfold buildAndShipMessage.
  rewrite (run_field _ _ _ _ H).
  replace (logLevel l >? LogLevelDebug) with true
    by (symmetry; apply Z.gtb_lt; lia).
  reflexivity.
Qed.

Lemma buildAndShipMessage_processed (w : world) (l : logger)
      (output messageType : string) (exit : bool) (d : value) :
  loggerSingleton w = Some l ->
  logLevel l <= LogLevelDebug ->
  run (buildAndShipMessage output messageType exit d) w =
  (if exit then Halted (Exited 1) else Done tt,
   processed l w output messageType d).
Proof.
  intros H Hlv. unfold buildAndShipMessage.
  rewrite (run_field _ _ _ _ H).
  replace (logLevel l >? LogLevelDebug) with false
    by (symmetry; rewrite Z.gtb_ltb; apply Z.ltb_ge; lia).
  configured w H. unfold processed, shipped, echoLine.
  destruct (bulk l) eqn:Hb, exit; cbn; rewrite Hb; reflexivity.
Qed.

Lemma buildAndShipMessage_nil (w : world)
      (output messageType : string) (exit : bool) (d : value) :
  loggerSingleton w = None ->
  run (buildAndShipMessage output messageType exit d) w
  = (Halted Panicked, w).
Proof. intro H. apply run_field_nil, H. Qed.

Lemma logd_unfold (s : severity) (output : string) (d : value) :
  exists messageType exit,
    logd s output d = buildAndShipMessage output messageType exit d
    /\ exit = match s with FATAL => true | _ => false end.
Proof.
  destruct s; simpl;
    [exists "DEBUG" | exists "INFO" | exists "WARN" | exists "ERROR"
     | exists "FATAL"]; eexists; split; reflexivity.
Qed.

(** X1.  The gate looks at the threshold alone: a call changes the process
    state exactly when the threshold is not above [LogLevelDebug], whatever
    the level of the call. *)
Lemma gate_decided_by_threshold_alone (w : world) (l : logger)
      (s : severity) (output : string) (d : value) :
  loggerSingleton w = Some l ->
  snd (run (logd s output d) w) <> w <-> logLevel l <= LogLevelDebug.
Proof.
  intro H. destruct (logd_unfold s output d) as (mt & ex & -> & _).
  destruct (Z_le_gt_dec (logLevel l) LogLevelDebug) as [Hle | Hgt].
  - rewrite (buildAndShipMessage_processed _ _ _ _ _ _ H Hle).
    split; [intros _; exact Hle | intros _].
    intro E. apply (f_equal ticks) in E. cbn in E. lia.
  - rewrite (buildAndShipMessage_dropped _ _ _ _ _ _ H Hgt).
    split; [intro E; exfalso; apply E; reflexivity | lia].
Qed.

(** C1.  The code at the failing input: with a threshold above
    [LogLevelDebug] (for instance INFO) a leveled call of any severity, also
    one at or above the threshold such as WARN, returns with the process
    state unchanged: nothing echoed, no goroutine started, no request. *)
Theorem leveled_call_dropped_above_debug_threshold
        (w : world) (l : logger) (s : severity) (output : string)
        (d : value) :
  loggerSingleton w = Some l ->
  logLevel l > LogLevelDebug ->
  run (logd s output d) w = (Done tt, w).
Proof.
  intros H Hlv. destruct (logd_unfold s output d) as (mt & ex & -> & _).
  eapply buildAndShipMessage_dropped; eassumption.
Qed.

(** C2.  The code at the failing input: for every processed call, whatever
    data the caller passed, the record handed to the shipping goroutine has
    the one-element slice holding nil as its metadata. *)
Theorem shipped_metadata_ignores_data
        (w : world) (l : logger) (s : severity) (output : string)
        (d : value) :
  loggerSingleton w = Some l ->
  logLevel l <= LogLevelDebug ->
  exists m : logMessage,
    goroutines (snd (run (logd s output d) w))
    = (goroutines w ++ [shipped l m])%list
    /\ Message m = output
    /\ Metadata m = VSlice [VNil].
Proof.
  intros H Hlv. destruct (logd_unfold s output d) as (mt & ex & -> & _).
  rewrite (buildAndShipMessage_processed _ _ _ _ _ _ H Hlv).
  eexists. cbn. split; [reflexivity|]. split; reflexivity.
Qed.


(** C3.  The code at the failing input: with a threshold above
    [LogLevelDebug] a fatal call returns to its caller; the process does
    not exit, and nothing is echoed or dispatched. *)
Theorem Fatald_returns_above_debug_threshold
        (w : world) (l : logger) (output : string) (d : value) :
  loggerSingleton w = Some l ->
  logLevel l > LogLevelDebug ->
  run (Fatald output d) w = (Done tt, w).
Proof.
  intros H Hlv. eapply buildAndShipMessage_dropped; eassumption.
Qed.

(** C10.  Before [SetupLogger] has run the singleton is nil, and each of
    the fifteen leveled entry points panics on its first statement, the
    read of [loggerSingleton.Level]; nothing has been printed or started. *)
Theorem leveled_call_before_setup_panics
        (w : world) (output format : string) (a : list value) (d : value) :
  loggerSingleton w = None ->
  Forall (fun call => run call w = (Halted Panicked, w))
         (leveledCalls output format a d).
Proof.
  intro H. unfold leveledCalls.
  repeat constructor; apply buildAndShipMessage_nil; exact H.
Qed.

End Facade.

Section FacadeSamples.
#[local] Existing Instance Sample.runtime.

Lemma warn_dropped_at_info_threshold :
  levelOf WARN >= LogLevelInfo
  /\ run (Warnd "disk low" VNil) (Sample.singleMode LogLevelInfo)
     = (Done tt, Sample.singleMode LogLevelInfo).
Proof.
  split; [vm_compute; discriminate|].
  apply (@leveled_call_dropped_above_debug_threshold Sample.runtime
           (Sample.singleMode LogLevelInfo) (Sample.single LogLevelInfo)
           WARN "disk low" VNil).
  - reflexivity.
  - reflexivity.
Defined.

Lemma metadata_of_info_with_map :
  exists m : logMessage,
    goroutines (snd (run (Infod "x" (VMap [("k", VStr "v")]))
                         (Sample.singleMode LogLevelDebug)))
    = [THandleLogMessage m]
    /\ Message m = "x"
    /\ Metadata m = VSlice [VNil].
Proof.
  apply (@shipped_metadata_ignores_data Sample.runtime
           (Sample.singleMode LogLevelDebug) (Sample.single LogLevelDebug)
           INFO "x" (VMap [("k", VStr "v")])).
  - reflexivity.
  - vm_compute; discriminate.
Defined.

Lemma fatal_returns_at_info_threshold :
  run (Fatald "boom" VNil) (Sample.singleMode LogLevelInfo)
  = (Done tt, Sample.singleMode LogLevelInfo).
Proof.
  apply (@Fatald_returns_above_debug_threshold Sample.runtime
           (Sample.singleMode LogLevelInfo) (Sample.single LogLevelInfo)).
  - reflexivity.
  - reflexivity.
Defined.

Lemma calls_on_fresh_process_panic :
  loggerSingleton Sample.fresh = None
  /\ Forall (fun call => run call Sample.fresh
                         = (Halted Panicked, Sample.fresh))
            (leveledCalls "up" "%d" [VInt 1] VNil).
Proof.
  split; [reflexivity|].
  apply (@leveled_call_before_setup_panics Sample.runtime). reflexivity.
Defined.

End FacadeSamples.

(* ================================================================== *)
(** ** Delivery: single records and batches *)

Section Delivery.
Context {R : Runtime}.

Lemma run_formatLoop (ms : list logMessage) (output : string) (w : world) :
  run (formatLoop ms output) w = (Done (bulkBody ms output), complained ms w).
Proof.
  revert output w.
  induction ms as [| m rest IH]; intros output w; simpl.
  - unfold complained. simpl. rewrite app_nil_r. destruct w; reflexivity.
  - unfold complained. simpl.
    destruct (json_Marshal m) as [b | err].
    + apply IH.
    + simpl. rewrite IH. unfold complained, write_stdout. simpl.
      rewrite <- app_assoc. reflexivity.
Qed.

Lemma run_formatBulkMessage {B : Type} (k : string -> prog B)
      (w : world) (l : logger) :
  loggerSingleton w = Some l ->
  mu l = false ->
  run (bind formatBulkMessage k) w
  = run (k (bulkBody (buffer l) "")) (complained (buffer l) w).
Proof.
  intros H Hmu. configured w H.
  unfold formatBulkMessage. cbn. rewrite Hmu. cbn.
  rewrite !run_bind, run_formatLoop. cbn.
  rewrite (set_mu_release _ Hmu). reflexivity.
Qed.

Lemma bulkBody_lines (ms : list logMessage) (output : string) :
  bulkBody ms output = (output ++ String.concat "" (map wireLine ms))%string.
Proof.
  revert output.
  induction ms as [| m rest IH]; intro output; cbn [bulkBody map].
  - now rewrite string_app_empty_r.
  - rewrite concat_empty_cons. unfold wireLine at 1.
    destruct (json_Marshal m) as [b | err]; rewrite IH.
    + now rewrite !string_app_assoc.
    + reflexivity.
Qed.

Lemma flush_unfold :
  flush = (body <- formatBulkMessage ;;
           trigger (WriteBuffer []) ;;
           u <- field url ;;
           r <- trigger (Post u "text/plain" body) ;;
           flushReport r).
Proof. reflexivity. Qed.

(** The report prints at most; it panics exactly when there is no
    response. *)
Lemma run_flushReport (r : postResult) (w : world) (l : logger) :
  loggerSingleton w = Some l ->
  fst (run (flushReport r) w)
    = match post_resp r with
      | None => Halted Panicked
      | Some _ => Done tt
      end
  /\ loggerSingleton (snd (run (flushReport r) w)) = Some l
  /\ requests (snd (run (flushReport r) w)) = requests w
  /\ goroutines (snd (run (flushReport r) w)) = goroutines w.
Proof.
  intro H. configured w H. unfold flushReport.
  destruct (post_resp r) as [resp |]; [| cbn; auto].
  destruct (StatusCode resp =? 403), (StatusCode resp =? 200),
    (post_err r), (debugMode l) eqn:Hd;
    repeat (cbn; rewrite ?Hd); auto.
Qed.

Lemma run_flush (w : world) (l : logger) :
  loggerSingleton w = Some l ->
  mu l = false ->
  fst (run flush w)
    = match post_resp (http_Post (List.length (requests w)) (url l)
                                 "text/plain" (bulkBody (buffer l) "")) with
      | None => Halted Panicked
      | Some _ => Done tt
      end
  /\ loggerSingleton (snd (run flush w)) = Some (set_buffer [] l)
  /\ requests (snd (run flush w)) = (requests w ++ [flushRequest l])%list
  /\ goroutines (snd (run flush w)) = goroutines w.
Proof.
  intros H Hmu. rewrite flush_unfold.
  rewrite (run_formatBulkMessage _ _ _ H Hmu).
  configured w H. unfold complained. cbn.
  match goal with
  | |- context [run (flushReport ?r) ?w'] =>
      destruct (run_flushReport r w' (set_buffer [] l) eq_refl)
        as (E1 & E2 & E3 & E4)
  end.
  rewrite E1, E2, E3, E4. cbn. auto.
Qed.

(** X8.  Single delivery looks at [err] first and returns: a transport
    error is reported when [debugMode] is set, and swallowed; the request
    has been issued. *)
Lemma handleLogMessage_swallows_transport_error
      (w : world) (l : logger) (m : logMessage) (b err : string) :
  loggerSingleton w = Some l ->
  json_Marshal m = Marshalled b ->
  post_err (http_Post (List.length (requests w)) (url l) "text/plain" b)
    = Some err ->
  fst (run (handleLogMessage m) w) = Done tt
  /\ requests (snd (run (handleLogMessage m) w))
     = (requests w ++ [mkRequest (url l) "text/plain" b])%list.
Proof.
  intros H Hm He. configured w H. unfold handleLogMessage.
  rewrite Hm. cbn in *. rewrite He.
  destruct (debugMode l) eqn:Hd; repeat (cbn; rewrite ?Hd); auto.
Qed.

(** C4.  The code at the failing input: when the POST of a flush cycle gets
    no response, [flush] reads [resp.StatusCode] through the nil response
    before it looks at [err], and panics. *)
Theorem flush_panics_on_transport_error
        (w : world) (l : logger) (err : string) :
  loggerSingleton w = Some l ->
  mu l = false ->
  http_Post (List.length (requests w)) (url l) "text/plain"
            (bulkBody (buffer l) "")
    = mkPost None (Some err) ->
  fst (run flush w) = Halted Panicked.
Proof.
  intros H Hmu Hpost.
  destruct (run_flush w l H Hmu) as (E & _).
  rewrite E, Hpost. reflexivity.
Qed.

(** C5, as amended.  Every flush cycle on a configured logger whose mutex
    is free issues exactly one POST to the configured endpoint, with content
    type text/plain and the encoded snapshot as body, and leaves the buffer
    empty; when the snapshot holds no record the request is sent all the
    same, with the empty body. *)
Theorem flush_posts_once_whatever_the_snapshot (w : world) (l : logger) :
  loggerSingleton w = Some l ->
  mu l = false ->
  requests (snd (run flush w))
    = (requests w ++ [mkRequest (url l) "text/plain"
                                (bulkBody (buffer l) "")])%list
  /\ loggerSingleton (snd (run flush w)) = Some (set_buffer [] l)
  /\ (buffer l = [] -> bulkBody (buffer l) "" = "").
Proof.
  intros H Hmu.
  destruct (run_flush w l H Hmu) as (_ & E2 & E3 & _).
  repeat split; try assumption.
  intros ->. reflexivity.
Qed.

End Delivery.

(** C5 as stated fails on the code: on the logger [SetupLogger] has just
    built in bulk mode, whose buffer is empty, [flush] issues a POST. *)
Lemma empty_flush_still_posts : ~ empty_flush_is_silent.
Proof.
  intro claim.
  specialize (claim Sample.runtime (Sample.bulkMode LogLevelDebug)
                    (Sample.batch LogLevelDebug) eq_refl eq_refl eq_refl).
  vm_compute in claim. discriminate claim.
Qed.

Section OfflineSamples.
#[local] Existing Instance Sample.offline.

Lemma offline_flush_panics :
  fst (run flush (Sample.bulkMode LogLevelDebug)) = Halted Panicked.
Proof.
  apply (@flush_panics_on_transport_error Sample.offline
           (Sample.bulkMode LogLevelDebug) (Sample.batch LogLevelDebug)
           "connection refused").
  - reflexivity.
  - reflexivity.
  - reflexivity.
Defined.

End OfflineSamples.

Section DeliverySamples.
#[local] Existing Instance Sample.runtime.

Lemma flush_of_empty_buffer_posts :
  requests (snd (run flush (Sample.bulkMode LogLevelDebug)))
    = [mkRequest "https://logs-01.loggly.com/bulk/abc/tag/svc/" "text/plain"
                 ""]
  /\ loggerSingleton (snd (run flush (Sample.bulkMode LogLevelDebug)))
     = Some (Sample.batch LogLevelDebug)
  /\ (@nil logMessage = [] -> ""%string = ""%string).
Proof.
  apply (@flush_posts_once_whatever_the_snapshot Sample.runtime
           (Sample.bulkMode LogLevelDebug) (Sample.batch LogLevelDebug)).
  - reflexivity.
  - reflexivity.
Defined.

End DeliverySamples.

(* ================================================================== *)
(** ** The buffer: appends and the size trigger *)

Section Buffer.
Context {R : Runtime}.

Lemma run_handleBulkLogMessage (w : world) (l : logger) (m : logMessage) :
  loggerSingleton w = Some l ->
  mu l = false ->
  run (handleBulkLogMessage m) w = (Done tt, appended l w [m]).
Proof.
  intros H Hmu. configured w H.
  unfold handleBulkLogMessage, appended. cbn. rewrite Hmu. cbn.
  rewrite length_app, Nat.add_comm. cbn [List.length Nat.add].
  destruct l as [tk lv u bk size fi buf mu0 tg dm]; cbn in *. subst mu0.
  match goal with
  | |- context [if ?c then _ else _] => destruct c
  end; cbn.
  - reflexivity.
  - rewrite app_nil_r. reflexivity.
Qed.

Lemma run_appendEach (ms : list logMessage) (w : world) (l : logger) :
  loggerSingleton w = Some l ->
  mu l = false ->
  run (appendEach ms) w = (Done tt, appended l w ms).
Proof.
  revert w l.
  induction ms as [| m rest IH]; intros w l H Hmu.
  - configured w H. unfold appended. cbn.
    rewrite !app_nil_r, set_buffer_same. reflexivity.
  - cbn [appendEach]. rewrite run_bind.
    rewrite (run_handleBulkLogMessage _ _ _ H Hmu).
    rewrite (IH _ (set_buffer (buffer l ++ [m]) l)); [| reflexivity |].
    + unfold appended. destruct l; cbn.
      rewrite <- !app_assoc, length_app, Nat.add_comm. reflexivity.
    + destruct l; assumption.
Qed.

Lemma sizeTriggers_below (size : Z) (n have : nat) :
  Z.of_nat (have + n) < size -> sizeTriggers size have n = [].
Proof.
  revert have.
  induction n as [| n IH]; intros have Hlt; [reflexivity|].
  cbn [sizeTriggers].
  replace (Z.of_nat (S have) >=? size) with false
    by (symmetry; rewrite Z.geb_leb; apply Z.leb_gt; lia).
  apply IH. lia.
Qed.

Lemma sizeTriggers_reaching (size : Z) (n have : nat) :
  Z.of_nat (have + S n) = size -> sizeTriggers size have (S n) = [TFlush].
Proof.
  revert have.
  induction n as [| n IH]; intros have Heq.
  - cbn [sizeTriggers].
    replace (Z.of_nat (S have) >=? size) with true
      by (symmetry; rewrite Z.geb_leb; apply Z.leb_le; lia).
    reflexivity.
  - change (sizeTriggers size have (S (S n)))
      with ((if Z.of_nat (S have) >=? size then [TFlush] else [])
              ++ sizeTriggers size (S have) (S n))%list.
    replace (Z.of_nat (S have) >=? size) with false
      by (symmetry; rewrite Z.geb_leb; apply Z.leb_gt; lia).
    apply IH. lia.
Qed.

(** C7.  On a configured logger with a free mutex, an empty buffer and a
    positive capacity, the appends of exactly [bufferSize] records start
    exactly one flush goroutine, and the appends of [bufferSize - 1] records
    start none: the flush is started by the append that brings the length to
    the capacity.  ([SetupLogger] sets the capacity to 1000.) *)
Theorem size_trigger_fires_once_at_capacity
        (w : world) (l : logger) (ms : list logMessage) :
  loggerSingleton w = Some l ->
  mu l = false ->
  buffer l = [] ->
  0 < bufferSize l ->
  fst (run (appendEach ms) w) = Done tt
  /\ (Z.of_nat (List.length ms) = bufferSize l ->
      goroutines (snd (run (appendEach ms) w))
      = (goroutines w ++ [TFlush])%list)
  /\ (Z.of_nat (List.length ms) = bufferSize l - 1 ->
      goroutines (snd (run (appendEach ms) w)) = goroutines w).
Proof.
  intros H Hmu Hbuf Hsize.
  rewrite (run_appendEach ms w l H Hmu). unfold appended. cbn.
  rewrite Hbuf. cbn [List.length].
  split; [reflexivity|]. split; intro Hlen.
  - destruct ms as [| m rest]; cbn [List.length] in *; [lia|].
    rewrite sizeTriggers_reaching by (cbn; lia). reflexivity.
  - rewrite sizeTriggers_below by (cbn; lia). apply app_nil_r.
Qed.

(** C9, as amended.  On a configured logger with a free mutex, after the
    appends of the records [ms], a flush cycle posts one request whose body
    is made of the encodings of the buffered records, one per record, each
    followed by a newline, in the order in which they were appended. *)
Theorem batch_payload_in_insertion_order
        (w : world) (l : logger) (ms : list logMessage)
        (encodings : list string) :
  loggerSingleton w = Some l ->
  mu l = false ->
  Forall2 (fun m b => json_Marshal m = Marshalled b)
          (buffer l ++ ms) encodings ->
  requests (snd (run (appendEach ms ;; flush) w))
  = (requests w
       ++ [mkRequest (url l) "text/plain"
             (String.concat "" (map (fun b => b ++ nl)%string encodings))])%list.
Proof.
  intros H Hmu Henc.
  rewrite run_bind, (run_appendEach ms w l H Hmu).
  destruct (run_flush (appended l w ms) (set_buffer (buffer l ++ ms) l)
                      eq_refl) as (_ & _ & E & _).
  { destruct l; assumption. }
  rewrite E. clear E. unfold flushRequest, appended.
  destruct l as [tk lv u bk size fi buf mu0 tg dm]; cbn in *.
  rewrite bulkBody_lines. cbn.
  do 3 f_equal.
  remember (buf ++ ms)%list as buffered eqn:Hb. clear Hb.
  induction Henc as [| m b rest bs Hm _ IH]; [reflexivity|].
  cbn [map]. rewrite !concat_empty_cons.
  unfold wireLine at 1. rewrite Hm, IH. reflexivity.
Qed.

End Buffer.

Section BufferSamples.
#[local] Existing Instance Sample.runtime.

Lemma thousand_appends_start_one_flush :
  goroutines (snd (run (appendEach (repeat (Sample.msg "a") 1000))
                       (Sample.bulkMode LogLevelDebug)))
  = [TStart; TFlush]
  /\ goroutines (snd (run (appendEach (repeat (Sample.msg "a") 999))
                          (Sample.bulkMode LogLevelDebug)))
     = [TStart].
Proof.
  split.
  - apply (proj1 (proj2
             (@size_trigger_fires_once_at_capacity Sample.runtime
                (Sample.bulkMode LogLevelDebug) (Sample.batch LogLevelDebug)
                (repeat (Sample.msg "a") 1000)
                eq_refl eq_refl eq_refl eq_refl))).
    reflexivity.
  - apply (proj2 (proj2
             (@size_trigger_fires_once_at_capacity Sample.runtime
                (Sample.bulkMode LogLevelDebug) (Sample.batch LogLevelDebug)
                (repeat (Sample.msg "a") 999)
                eq_refl eq_refl eq_refl eq_refl))).
    reflexivity.
Defined.

Lemma three_records_one_batch :
  requests (snd (run (appendEach [Sample.msg "a"; Sample.msg "b";
                                  Sample.msg "c"] ;; flush)
                     (Sample.bulkMode LogLevelDebug)))
  = [mkRequest "https://logs-01.loggly.com/bulk/abc/tag/svc/" "text/plain"
               ("a" ++ nl ++ "b" ++ nl ++ "c" ++ nl)%string].
Proof.
  apply (@batch_payload_in_insertion_order Sample.runtime
           (Sample.bulkMode LogLevelDebug) (Sample.batch LogLevelDebug)
           [Sample.msg "a"; Sample.msg "b"; Sample.msg "c"] ["a"; "b"; "c"]).
  - reflexivity.
  - reflexivity.
  - repeat constructor.
Defined.

(** Two flush cycles that both take their snapshot before either clears the
    buffer ship the same record twice. *)
Example concurrent_drains_duplicate :
  option_map Interleaving.payloads
    (Interleaving.exec
       [0; 0; 0; 1; 1; 1; 0; 0; 0; 1; 1; 1]%nat
       (Interleaving.mkConfig
          (mkWorld (Some (set_buffer [Sample.msg "a"]
                                     (Sample.batch LogLevelDebug)))
                   [] [] 0 [TStart])
          [flush; flush] None None))
  = Some [("a" ++ nl)%string; ("a" ++ nl)%string].
Proof. vm_compute. reflexivity. Qed.

(** The mutex does exclude: while the flush goroutine is inside
    [formatBulkMessage], the append goroutine cannot take its first step. *)
Example append_waits_for_snapshot :
  Interleaving.exec [0; 1]%nat
    (racing (Sample.batch LogLevelDebug) (Sample.msg "a")) = None.
Proof. vm_compute. reflexivity. Qed.

End BufferSamples.

(* ================================================================== *)
(** ** The drain of a flush cycle under interleaving *)

Section Drain.
Context {R : Runtime}.
Import Interleaving.

(** C6.  The code at the failing input.  The flush goroutine takes its
    snapshot of the empty buffer under the mutex and releases it on return
    from [formatBulkMessage]; the append goroutine then runs to its end and
    puts [m] in the buffer; the flush goroutine is now about to assign
    [loggerSingleton.buffer = nil] while it does not hold the mutex, and
    after that assignment and the POST the buffer is empty and the only
    payload is empty: [m] is in no batch. *)
Theorem clear_outside_guard_loses_append
        (token : string) (level : Level) (tags : list string)
        (debugMode : bool) (m : logMessage) :
  let c0 := racing (bulkLogger token level tags debugMode) m in
  option_map (fun c => (returned 1 c, buffered c,
                        about_to_write 0 c, holds_guard 0 c))
             (exec [0; 0; 0; 1; 1; 1; 1; 1; 1]%nat c0)
  = Some (true, [m], true, false)
  /\ option_map (fun c => (buffered c, payloads c))
                (exec [0; 0; 0; 1; 1; 1; 1; 1; 1; 0; 0; 0]%nat c0)
     = Some ([], [""%string]).
Proof.
  split; vm_compute; reflexivity.
Qed.

End Drain.

(* ================================================================== *)
(** ** Call order and append order *)

Section CallOrderFacts.
Context {R : Runtime}.

(** X22.  In bulk mode, processed calls made one after another return
    normally and start one append goroutine each, in call order, carrying
    the record of the call, and leave the logger as it was: what [ship]
    hands over is in call order, and it is the scheduler that decides in
    which order the appends then run. *)
Lemma calls_start_appends_in_call_order
      (outputs : list string) (w : world) (l : logger) :
  loggerSingleton w = Some l ->
  bulk l = true ->
  logLevel l <= LogLevelDebug ->
  fst (run (callEach outputs) w) = Done tt
  /\ goroutines (snd (run (callEach outputs) w))
     = (goroutines w
          ++ map THandleBulkLogMessage (recordsFrom (ticks w) outputs))%list
  /\ loggerSingleton (snd (run (callEach outputs) w)) = Some l.
Proof.
  intros H Hb Hle. revert w H.
  induction outputs as [| o rest IH]; intros w H.
  - cbn. rewrite app_nil_r. auto.
  - cbn [callEach]. rewrite run_bind. unfold Infoln, Infod.
    rewrite (buildAndShipMessage_processed _ _ _ _ _ _ H Hle).
    destruct (IH (processed l w o "INFO" VNil) H) as (E1 & E2 & E3).
    rewrite E1, E2, E3. unfold processed, shipped. rewrite Hb.
    cbn. rewrite <- app_assoc. auto.
Qed.

End CallOrderFacts.

(** C9 as stated fails on the code: three calls a, b, c in bulk mode, the
    appends scheduled c, a, b (each is a goroutine of its own, started by
    [ship]): the batch reads c, a, b. *)
Lemma batch_in_append_order_not_call_order : ~ batch_follows_call_order.
Proof.
  intro claim.
  pose (c := reached
               (Interleaving.exec (R := Sample.runtime) thirdAppendFirst
                  (Interleaving.mkConfig (Sample.bulkMode LogLevelDebug)
                     [callEach (R := Sample.runtime) ["a"; "b"; "c"]%string]
                     None None))).
  specialize (claim Sample.runtime (Sample.bulkMode LogLevelDebug)
                    (Sample.batch LogLevelDebug) ["a"; "b"; "c"]%string
                    thirdAppendFirst c
                    eq_refl eq_refl eq_refl eq_refl).
  assert (E : map req_body
                (requests
                   (snd (run (R := Sample.runtime)
                             (flush (R := Sample.runtime))
                             (Interleaving.shared c))))
              = [("c" ++ nl ++ "a" ++ nl ++ "b" ++ nl)%string])
    by (vm_compute; reflexivity).
  rewrite E in claim. clear E.
  assert (F : [("c" ++ nl ++ "a" ++ nl ++ "b" ++ nl)%string]
              = [("a" ++ nl ++ "b" ++ nl ++ "c" ++ nl)%string]).
  { apply claim.
    - vm_compute. discriminate.
    - vm_compute. reflexivity.
    - vm_compute. reflexivity.
    - vm_compute. reflexivity. }
  vm_compute in F. discriminate F.
Qed.

Section CallOrderSamples.
#[local] Existing Instance Sample.runtime.

Lemma three_calls_start_three_appends :
  fst (run (callEach ["a"; "b"; "c"]%string) (Sample.bulkMode LogLevelDebug))
  = Done tt
  /\ goroutines (snd (run (callEach ["a"; "b"; "c"]%string)
                          (Sample.bulkMode LogLevelDebug)))
     = [TStart; THandleBulkLogMessage (Sample.msg "a");
        THandleBulkLogMessage (Sample.msg "b");
        THandleBulkLogMessage (Sample.msg "c")]
  /\ loggerSingleton (snd (run (callEach ["a"; "b"; "c"]%string)
                               (Sample.bulkMode LogLevelDebug)))
     = Some (Sample.batch LogLevelDebug).
Proof.
  apply (@calls_start_appends_in_call_order Sample.runtime
           ["a"; "b"; "c"]%string
           (Sample.bulkMode LogLevelDebug) (Sample.batch LogLevelDebug)).
  - reflexivity.
  - reflexivity.
  - vm_compute; discriminate.
Defined.

End CallOrderSamples.

(* ================================================================== *)
(** ** More on the entry points and on configuration *)

Section MoreFacade.
Context {R : Runtime}.

Lemma logd_is_buildAndShipMessage (s : severity) (output : string)
      (d : value) :
  logd s output d
  = buildAndShipMessage output (levelName s)
                        (match s with FATAL => true | _ => false end) d.
Proof. destruct s; reflexivity. Qed.


(** X4.  A leveled call never issues a request itself and never changes the
    logger (threshold, endpoint, buffer, mutex): in every state of the
    process, configured or not, the requests and the singleton are after the
    call what they were before. *)
Theorem leveled_call_leaves_network_and_logger
        (w : world) (s : severity) (output : string) (d : value) :
  requests (snd (run (logd s output d) w)) = requests w
  /\ loggerSingleton (snd (run (logd s output d) w)) = loggerSingleton w.
Proof.
  rewrite logd_is_buildAndShipMessage.
  destruct (loggerSingleton w) as [l |] eqn:H.
  - destruct (Z_le_gt_dec (logLevel l) LogLevelDebug) as [Hle | Hgt].
    + rewrite (buildAndShipMessage_processed _ _ _ _ _ _ H Hle).
      split; [reflexivity | exact H].
    + rewrite (buildAndShipMessage_dropped _ _ _ _ _ _ H Hgt).
      split; [reflexivity | exact H].
  - rewrite (buildAndShipMessage_nil _ _ _ _ _ H).
    split; [reflexivity | exact H].
Qed.

(** X5.  A processed call reads the clock twice.  The echoed line carries
    the first reading, the tag of the entry point, the message and, when
    data was given, its [%+v] rendering; the record handed to the shipping
    goroutine carries the second reading, the same tag and message; the
    goroutine is the bulk one exactly when the logger is in bulk mode. *)
Theorem processed_call_echo_and_record
        (w : world) (l : logger) (s : severity) (output : string)
        (d : value) :
  loggerSingleton w = Some l ->
  logLevel l <= LogLevelDebug ->
  let w' := snd (run (logd s output d) w) in
  stdout w'
  = (stdout w
       ++ [(echoLine (time_Now_Format (ticks w)) (levelName s) output d
              ++ nl)%string])%list
  /\ goroutines w'
     = (goroutines w
          ++ [if bulk l
              then THandleBulkLogMessage (recordOf w s output)
              else THandleLogMessage (recordOf w s output)])%list
  /\ ticks w' = S (S (ticks w)).
Proof.
  intros H Hle w'. subst w'. rewrite logd_is_buildAndShipMessage.
  rewrite (buildAndShipMessage_processed _ _ _ _ _ _ H Hle).
  repeat split.
Qed.

(** X6.  The first [SetupLogger] returns normally, prints nothing and issues
    no request; it starts the periodic [start] goroutine, once, exactly when
    bulk mode is asked for, and the endpoint it installs is the bulk or the
    inputs path with the token and the tags joined by commas. *)
Theorem SetupLogger_starts_ticker_in_bulk_mode_only
        (w : world) (token : string) (level : Level) (tags : list string)
        (bulk debugMode : bool) :
  loggerSingleton w = None ->
  let r := run (SetupLogger token level tags bulk debugMode) w in
  fst r = Done tt
  /\ goroutines (snd r)
     = (if bulk then goroutines w ++ [TStart] else goroutines w)%list
  /\ stdout (snd r) = stdout w
  /\ requests (snd r) = requests w
  /\ option_map url (loggerSingleton (snd r))
     = Some (endpoint token tags bulk).
Proof.
  intros H r. subst r. rewrite (SetupLogger_fresh _ _ _ _ _ _ H).
  repeat split.
Qed.

End MoreFacade.

Section MoreFacadeSamples.
#[local] Existing Instance Sample.runtime.

Lemma gate_on_sample_info_threshold :
  snd (run (logd ERROR "disk full" VNil) (Sample.singleMode LogLevelInfo))
    <> Sample.singleMode LogLevelInfo
  <-> LogLevelInfo <= LogLevelDebug.
Proof.
  apply (@gate_decided_by_threshold_alone Sample.runtime
           (Sample.singleMode LogLevelInfo) (Sample.single LogLevelInfo)
           ERROR "disk full" VNil).
  reflexivity.
Defined.



Lemma error_with_data_on_sample :
  let w' := snd (run (logd ERROR "disk full" (VInt 7))
                     (Sample.singleMode LogLevelDebug)) in
  stdout w'
  = [("2006-01-02T15:04:05.000Z [ERROR] disk full {}" ++ nl)%string]
  /\ goroutines w'
     = [THandleLogMessage
          (mkMessage "2006-01-02T15:04:05.000Z" "ERROR" "disk full"
                     (VSlice [VNil]))]
  /\ ticks w' = 2%nat.
Proof.
  apply (@processed_call_echo_and_record Sample.runtime
           (Sample.singleMode LogLevelDebug) (Sample.single LogLevelDebug)
           ERROR "disk full" (VInt 7)).
  - reflexivity.
  - vm_compute; discriminate.
Defined.

Lemma setup_with_two_tags_on_sample :
  let r := run (SetupLogger "abc" LogLevelWarn ["svc"; "eu"] true false)
               Sample.fresh in
  fst r = Done tt
  /\ goroutines (snd r) = [TStart]
  /\ stdout (snd r) = []
  /\ requests (snd r) = []
  /\ option_map url (loggerSingleton (snd r))
     = Some "https://logs-01.loggly.com/bulk/abc/tag/svc,eu/".
Proof.
  apply (@SetupLogger_starts_ticker_in_bulk_mode_only Sample.runtime
           Sample.fresh "abc" LogLevelWarn ["svc"; "eu"] true false).
  reflexivity.
Defined.

End MoreFacadeSamples.

(* ================================================================== *)
(** ** More on delivery *)

Section MoreDelivery.
Context {R : Runtime}.

Lemma run_handleLogMessage_answered
      (w : world) (l : logger) (m : logMessage) (b : string)
      (resp : Response) :
  loggerSingleton w = Some l ->
  json_Marshal m = Marshalled b ->
  http_Post (List.length (requests w)) (url l) "text/plain" b
    = mkPost (Some resp) None ->
  run (handleLogMessage m) w
  = (Done tt,
     mkWorld (Some l)
             (stdout w ++ statusLines "Log was shipped successfully "
                                      (debugMode l) resp)%list
             (requests w ++ [mkRequest (url l) "text/plain" b])%list
             (ticks w) (goroutines w)).
Proof.
  intros H Hm Hp. configured w H. unfold handleLogMessage, statusLines.
  rewrite Hm. cbn in *. rewrite Hp. cbn.
  destruct (StatusCode resp =? 403), (StatusCode resp =? 200),
    (debugMode l) eqn:Hd;
    repeat (cbn; rewrite ?Hd); unfold write_stdout, sent; cbn;
    rewrite <- ?app_assoc, ?app_nil_r; reflexivity.
Qed.

Lemma run_flush_full (w : world) (l : logger) :
  loggerSingleton w = Some l ->
  mu l = false ->
  let r := http_Post (List.length (requests w)) (url l) "text/plain"
                     (bulkBody (buffer l) "") in
  run flush w
  = (match post_resp r with
     | Some _ => Done tt
     | None => Halted Panicked
     end,
     mkWorld (Some (set_buffer [] l))
             (stdout w ++ bulkComplaints (buffer l)
                ++ match post_resp r with
                   | Some resp => flushLines (debugMode l) r resp
                   | None => []
                   end)%list
             (requests w ++ [flushRequest l])%list
             (ticks w) (goroutines w)).
Proof.
  intros H Hmu r. rewrite flush_unfold.
  rewrite (run_formatBulkMessage _ _ _ H Hmu).
  configured w H. destruct l as [tk lv u bk size fi buf mu0 tg dm].
  unfold complained, flushRequest. subst r. cbn.
  remember (http_Post _ u "text/plain" (bulkBody buf "")) as r eqn:Hr.
  clear Hr. unfold flushReport, flushLines, statusLines.
  destruct (post_resp r) as [resp |].
  - destruct (StatusCode resp =? 403), (StatusCode resp =? 200),
      (post_err r), dm;
      cbn; unfold write_stdout, sent; cbn;
      rewrite <- ?app_assoc, ?app_nil_r; reflexivity.
  - cbn. rewrite app_nil_r. reflexivity.
Qed.

Lemma bulkComplaints_none (ms : list logMessage) :
  Forall (fun m => exists b, json_Marshal m = Marshalled b) ms ->
  bulkComplaints ms = [].
Proof.
  induction 1 as [| m rest [b Hb] _ IH]; cbn; [reflexivity|].
  rewrite Hb. exact IH.
Qed.

(** X7.  When [json.Marshal] refuses the record, single delivery prints the
    complaint, with or without [debugMode], and returns: no request is
    issued and the logger is not even read, so this holds in every state of
    the process. *)
Theorem single_delivery_marshal_failure
        (w : world) (m : logMessage) (err : string) :
  json_Marshal m = MarshalError err ->
  run (handleLogMessage m) w
  = (Done tt,
     write_stdout ("There was an error marshalling log message: " ++ err) w).
Proof.
  intro Hm. unfold handleLogMessage. rewrite Hm. reflexivity.
Qed.

(** X9.  When the POST of a single delivery is answered, the function
    returns normally after exactly one request to the configured endpoint,
    whatever the status.  It prints only in [debugMode], and then only for
    status 403 (the token is invalid) and status 200 (shipped); any other
    status, such as 500, is passed over in silence. *)
Theorem single_delivery_status_report
        (w : world) (l : logger) (m : logMessage) (b : string)
        (resp : Response) :
  loggerSingleton w = Some l ->
  json_Marshal m = Marshalled b ->
  http_Post (List.length (requests w)) (url l) "text/plain" b
    = mkPost (Some resp) None ->
  fst (run (handleLogMessage m) w) = Done tt
  /\ requests (snd (run (handleLogMessage m) w))
     = (requests w ++ [mkRequest (url l) "text/plain" b])%list
  /\ stdout (snd (run (handleLogMessage m) w))
     = (stdout w
          ++ (if debugMode l
              then if StatusCode resp =? 403
                   then [(("Token is invalid " ++ Status resp) ++ nl)%string]
                   else if StatusCode resp =? 200
                        then [(("Log was shipped successfully "
                                  ++ Status resp) ++ nl)%string]
                        else []
              else []))%list.
Proof.
  intros H Hm Hp.
  rewrite (run_handleLogMessage_answered _ _ _ _ _ H Hm Hp).
  cbn [fst snd requests stdout]. repeat split.
  f_equal. unfold statusLines.
  destruct (debugMode l); [| reflexivity].
  destruct (StatusCode resp =? 403) eqn:E403; [| reflexivity].
  replace (StatusCode resp =? 200) with false; [reflexivity|].
  symmetry. apply Z.eqb_neq. apply Z.eqb_eq in E403. lia.
Qed.

(** X10.  With [debugMode] off a single delivery whose record encodes
    prints nothing, whether the POST is answered or fails: the only trace it
    leaves is the request. *)
Theorem single_delivery_silent_without_debug_mode
        (w : world) (l : logger) (m : logMessage) (b : string) :
  loggerSingleton w = Some l ->
  debugMode l = false ->
  json_Marshal m = Marshalled b ->
  let r := http_Post (List.length (requests w)) (url l) "text/plain" b in
  post_err r <> None \/ post_resp r <> None ->
  run (handleLogMessage m) w
  = (Done tt, sent (mkRequest (url l) "text/plain" b) w).
Proof.
  intros H Hd Hm r Hr. configured w H. unfold handleLogMessage.
  rewrite Hm. cbn in *. fold r.
  destruct (post_err r) as [err |].
  - repeat (cbn; rewrite ?Hd). reflexivity.
  - destruct (post_resp r) as [resp |].
    + destruct (StatusCode resp =? 403), (StatusCode resp =? 200);
        repeat (cbn; rewrite ?Hd); reflexivity.
    + destruct Hr as [Hr | Hr]; contradiction.
Qed.

(** X11.  A flush cycle drops the records [json.Marshal] refuses: the body
    of its request is made of the lines of the records that encode, in
    buffer order; one complaint per refused record is printed, with or
    without [debugMode], before anything else the cycle prints; and the
    buffer is empty afterwards, so the refused records are gone. *)
Theorem flush_drops_records_that_do_not_encode (w : world) (l : logger) :
  loggerSingleton w = Some l ->
  mu l = false ->
  map req_body (requests (snd (run flush w)))
    = (map req_body (requests w)
         ++ [String.concat "" (map wireLine (buffer l))])%list
  /\ (exists tail,
        stdout (snd (run flush w))
        = (stdout w ++ bulkComplaints (buffer l) ++ tail)%list)
  /\ option_map buffer (loggerSingleton (snd (run flush w))) = Some [].
Proof.
  intros H Hmu. rewrite (run_flush_full w l H Hmu). cbn [snd].
  split; [| split].
  - cbn. rewrite map_app. cbn. rewrite bulkBody_lines. reflexivity.
  - eexists. reflexivity.
  - reflexivity.
Qed.

(** X12.  With [debugMode] off, a flush cycle whose records all encode and
    whose POST is answered prints nothing and returns normally, leaving one
    request and an empty buffer. *)
Theorem flush_silent_without_debug_mode (w : world) (l : logger) :
  loggerSingleton w = Some l ->
  mu l = false ->
  debugMode l = false ->
  Forall (fun m => exists b, json_Marshal m = Marshalled b) (buffer l) ->
  post_resp (http_Post (List.length (requests w)) (url l) "text/plain"
                       (bulkBody (buffer l) "")) <> None ->
  run flush w
  = (Done tt,
     mkWorld (Some (set_buffer [] l)) (stdout w)
             (requests w ++ [flushRequest l])%list (ticks w) (goroutines w)).
Proof.
  intros H Hmu Hd Hall Hr. rewrite (run_flush_full w l H Hmu). cbn zeta.
  destruct (post_resp _) as [resp |]; [| contradiction].
  rewrite (bulkComplaints_none _ Hall).
  unfold flushLines, statusLines. rewrite Hd.
  destruct (post_err _); cbn; rewrite app_nil_r; reflexivity.
Qed.

(** X13.  Two flush cycles in a row, the first one answered: the first
    ships the buffer, the second finds it empty and ships the empty body. *)
Theorem second_flush_ships_empty_body (w : world) (l : logger) :
  loggerSingleton w = Some l ->
  mu l = false ->
  post_resp (http_Post (List.length (requests w)) (url l) "text/plain"
                       (bulkBody (buffer l) "")) <> None ->
  requests (snd (run (flush ;; flush) w))
  = (requests w ++ [mkRequest (url l) "text/plain" (bulkBody (buffer l) "");
                    mkRequest (url l) "text/plain" ""])%list.
Proof.
  intros H Hmu Hr. rewrite run_bind, (run_flush_full w l H Hmu). cbn zeta.
  destruct (post_resp _) as [resp |]; [| contradiction].
  match goal with
  | |- context [run flush ?w1] =>
      rewrite (run_flush_full w1 (set_buffer [] l) eq_refl)
  end.
  - cbn [snd requests]. rewrite <- app_assoc.
    destruct l; reflexivity.
  - destruct l; assumption.
Qed.

(** X14.  An idle bulk logger is not quiet on the network: with an empty
    buffer and a server that answers, every turn of the loop of [start]
    starts a flush, and every such flush posts a request with an empty
    body. *)
Theorem idle_ticker_posts_empty_request_each_turn
        (n : nat) (w : world) (l : logger) :
  (forall k u ct b, post_resp (http_Post k u ct b) <> None) ->
  loggerSingleton w = Some l ->
  mu l = false ->
  buffer l = [] ->
  fst (run (idleTurns n) w) = Done tt
  /\ requests (snd (run (idleTurns n) w))
     = (requests w ++ repeat (mkRequest (url l) "text/plain" "") n)%list
  /\ goroutines (snd (run (idleTurns n) w))
     = (goroutines w ++ repeat TFlush n)%list.
Proof.
  intro Hnet. revert w l.
  induction n as [| n IH]; intros w l H Hmu Hbuf.
  - cbn. rewrite !app_nil_r. repeat split.
  - cbn [idleTurns]. rewrite run_bind.
    assert (Hturn : run startTurn w = (Done tt, started TFlush w)).
    { configured w H. reflexivity. }
    rewrite Hturn. rewrite run_bind.
    rewrite (run_flush_full (started TFlush w) l H Hmu). cbn zeta.
    destruct (post_resp _) as [resp |] eqn:Hresp;
      [| exfalso; eapply Hnet; exact Hresp].
    match goal with
    | |- context [run (idleTurns n) ?w1] =>
        destruct (IH w1 (set_buffer [] l) eq_refl) as (E1 & E2 & E3)
    end.
    { destruct l; assumption. }
    { reflexivity. }
    rewrite E1, E2, E3. cbn [requests goroutines started].
    unfold flushRequest. rewrite Hbuf. cbn [bulkBody repeat].
    rewrite <- !app_assoc. destruct l; repeat split.
Qed.

End MoreDelivery.

Section MoreDeliverySamples.
#[local] Existing Instance Sample.runtime.

Lemma refused_record_on_sample :
  run (handleLogMessage (mkMessage "" "INFO" "x" VFunc)) Sample.fresh
  = (Done tt,
     write_stdout ("There was an error marshalling log message: "
                     ++ "json: unsupported type") Sample.fresh).
Proof.
  apply (@single_delivery_marshal_failure Sample.runtime Sample.fresh
           (mkMessage "" "INFO" "x" VFunc) "json: unsupported type").
  reflexivity.
Defined.

Lemma answered_delivery_on_sample :
  fst (run (handleLogMessage (Sample.msg "a"))
           (Sample.singleMode LogLevelDebug)) = Done tt
  /\ requests (snd (run (handleLogMessage (Sample.msg "a"))
                        (Sample.singleMode LogLevelDebug)))
     = [mkRequest "https://logs-01.loggly.com/inputs/abc/tag/svc/"
                  "text/plain" "a"]
  /\ stdout (snd (run (handleLogMessage (Sample.msg "a"))
                      (Sample.singleMode LogLevelDebug)))
     = [("Log was shipped successfully 200 OK" ++ nl)%string].
Proof.
  apply (@single_delivery_status_report Sample.runtime
           (Sample.singleMode LogLevelDebug) (Sample.single LogLevelDebug)
           (Sample.msg "a") "a" (mkResponse 200 "200 OK")).
  - reflexivity.
  - reflexivity.
  - reflexivity.
Defined.

Lemma quiet_delivery_on_sample :
  run (handleLogMessage (Sample.msg "a"))
      (mkWorld (Some (mkLogger "abc" LogLevelDebug "u" false 1000
                               (10 * Second) [] false [] false))
               [] [] 0 [])
  = (Done tt,
     mkWorld (Some (mkLogger "abc" LogLevelDebug "u" false 1000
                             (10 * Second) [] false [] false))
             [] [mkRequest "u" "text/plain" "a"] 0 []).
Proof.
  apply (@single_delivery_silent_without_debug_mode Sample.runtime
           (mkWorld (Some (mkLogger "abc" LogLevelDebug "u" false 1000
                                    (10 * Second) [] false [] false))
                    [] [] 0 [])
           (mkLogger "abc" LogLevelDebug "u" false 1000 (10 * Second)
                     [] false [] false)
           (Sample.msg "a") "a").
  - reflexivity.
  - reflexivity.
  - reflexivity.
  - right. discriminate.
Defined.

Lemma refused_record_dropped_from_batch :
  let l := set_buffer [Sample.msg "a"; mkMessage "" "INFO" "x" VFunc;
                       Sample.msg "b"] (Sample.batch LogLevelDebug) in
  let w := mkWorld (Some l) [] [] 0 [TStart] in
  map req_body (requests (snd (run flush w)))
    = [("a" ++ nl ++ "b" ++ nl)%string]
  /\ (exists tail,
        stdout (snd (run flush w))
        = ("There was an error marshalling buffer message: json: unsupported type"%string
             :: tail))
  /\ option_map buffer (loggerSingleton (snd (run flush w))) = Some [].
Proof.
  apply (@flush_drops_records_that_do_not_encode Sample.runtime
           (mkWorld (Some (set_buffer [Sample.msg "a";
                                       mkMessage "" "INFO" "x" VFunc;
                                       Sample.msg "b"]
                                      (Sample.batch LogLevelDebug)))
                    [] [] 0 [TStart])
           (set_buffer [Sample.msg "a"; mkMessage "" "INFO" "x" VFunc;
                        Sample.msg "b"] (Sample.batch LogLevelDebug))).
  - reflexivity.
  - reflexivity.
Defined.

Lemma quiet_flush_on_sample :
  let l := mkLogger "abc" LogLevelDebug "u" true 1000 (10 * Second)
                    [Sample.msg "a"] false [] false in
  run flush (mkWorld (Some l) [] [] 0 [])
  = (Done tt,
     mkWorld (Some (set_buffer [] l)) []
             [mkRequest "u" "text/plain" ("a" ++ nl)%string] 0 []).
Proof.
  apply (@flush_silent_without_debug_mode Sample.runtime
           (mkWorld (Some (mkLogger "abc" LogLevelDebug "u" true 1000
                                    (10 * Second) [Sample.msg "a"] false []
                                    false)) [] [] 0 [])
           (mkLogger "abc" LogLevelDebug "u" true 1000 (10 * Second)
                     [Sample.msg "a"] false [] false)).
  - reflexivity.
  - reflexivity.
  - reflexivity.
  - repeat constructor. exists "a"%string. reflexivity.
  - discriminate.
Defined.

Lemma two_flushes_on_sample :
  let l := set_buffer [Sample.msg "a"] (Sample.batch LogLevelDebug) in
  requests (snd (run (flush ;; flush) (mkWorld (Some l) [] [] 0 [TStart])))
  = [mkRequest "https://logs-01.loggly.com/bulk/abc/tag/svc/" "text/plain"
               ("a" ++ nl)%string;
     mkRequest "https://logs-01.loggly.com/bulk/abc/tag/svc/" "text/plain"
               ""].
Proof.
  apply (@second_flush_ships_empty_body Sample.runtime
           (mkWorld (Some (set_buffer [Sample.msg "a"]
                                      (Sample.batch LogLevelDebug)))
                    [] [] 0 [TStart])
           (set_buffer [Sample.msg "a"] (Sample.batch LogLevelDebug))).
  - reflexivity.
  - reflexivity.
  - discriminate.
Defined.

Lemma three_idle_turns_on_sample :
  fst (run (idleTurns 3) (Sample.bulkMode LogLevelDebug)) = Done tt
  /\ requests (snd (run (idleTurns 3) (Sample.bulkMode LogLevelDebug)))
     = repeat (mkRequest "https://logs-01.loggly.com/bulk/abc/tag/svc/"
                         "text/plain" "") 3
  /\ goroutines (snd (run (idleTurns 3) (Sample.bulkMode LogLevelDebug)))
     = [TStart; TFlush; TFlush; TFlush].
Proof.
  apply (@idle_ticker_posts_empty_request_each_turn Sample.runtime 3
           (Sample.bulkMode LogLevelDebug) (Sample.batch LogLevelDebug)).
  - intros k u ct b. discriminate.
  - reflexivity.
  - reflexivity.
  - reflexivity.
Defined.

End MoreDeliverySamples.

Section MoreOfflineSamples.
#[local] Existing Instance Sample.offline.

Lemma offline_single_delivery_returns :
  fst (run (handleLogMessage (Sample.msg "a"))
           (Sample.singleMode LogLevelDebug)) = Done tt
  /\ requests (snd (run (handleLogMessage (Sample.msg "a"))
                        (Sample.singleMode LogLevelDebug)))
     = [mkRequest "https://logs-01.loggly.com/inputs/abc/tag/svc/"
                  "text/plain" "a"].
Proof.
  apply (@handleLogMessage_swallows_transport_error Sample.offline
           (Sample.singleMode LogLevelDebug) (Sample.single LogLevelDebug)
           (Sample.msg "a") "a" "connection refused").
  - reflexivity.
  - reflexivity.
  - reflexivity.
Defined.

End MoreOfflineSamples.

(* ================================================================== *)
(** ** More on the buffer, and the two pipelines end to end *)

Section MoreBuffer.
Context {R : Runtime}.

Lemma sizeTriggers_count (size : Z) (n have : nat) :
  0 < size ->
  sizeTriggers size have n
  = repeat TFlush (have + n - Nat.max have (Z.to_nat (size - 1))).
Proof.
  intro Hsize. revert have.
  induction n as [| n IH]; intro have.
  - cbn [sizeTriggers].
    replace (have + 0 - Nat.max have (Z.to_nat (size - 1)))%nat with 0%nat
      by lia.
    reflexivity.
  - cbn [sizeTriggers]. rewrite IH.
    destruct (Z.of_nat (S have) >=? size) eqn:E.
    + rewrite Z.geb_leb in E. apply Z.leb_le in E.
      replace (have + S n - Nat.max have (Z.to_nat (size - 1)))%nat
        with (S (S have + n - Nat.max (S have) (Z.to_nat (size - 1))))
        by lia.
      reflexivity.
    + rewrite Z.geb_leb in E. apply Z.leb_gt in E.
      replace (have + S n - Nat.max have (Z.to_nat (size - 1)))%nat
        with (S have + n - Nat.max (S have) (Z.to_nat (size - 1)))%nat
        by lia.
      reflexivity.
Qed.

Lemma handleLogMessage_requests
      (w : world) (l : logger) (m : logMessage) (b : string) :
  loggerSingleton w = Some l ->
  json_Marshal m = Marshalled b ->
  requests (snd (run (handleLogMessage m) w))
  = (requests w ++ [mkRequest (url l) "text/plain" b])%list.
Proof.
  intros H Hm. configured w H. unfold handleLogMessage. rewrite Hm. cbn.
  destruct (post_err _) as [err |].
  - destruct (debugMode l) eqn:Hd; repeat (cbn; rewrite ?Hd); reflexivity.
  - destruct (post_resp _) as [resp |]; [| reflexivity].
    destruct (StatusCode resp =? 403), (StatusCode resp =? 200),
      (debugMode l) eqn:Hd; repeat (cbn; rewrite ?Hd); reflexivity.
Qed.

(** X15.  Appends put the records behind what the buffer already holds, in
    the order of the appends, and touch nothing else: the mutex is free
    again afterwards, nothing is printed and no request is issued. *)
Theorem appends_extend_buffer_in_order
        (w : world) (l : logger) (ms : list logMessage) :
  loggerSingleton w = Some l ->
  mu l = false ->
  fst (run (appendEach ms) w) = Done tt
  /\ loggerSingleton (snd (run (appendEach ms) w))
     = Some (set_buffer (buffer l ++ ms) l)
  /\ stdout (snd (run (appendEach ms) w)) = stdout w
  /\ requests (snd (run (appendEach ms) w)) = requests w.
Proof.
  intros H Hmu. rewrite (run_appendEach ms w l H Hmu). repeat split.
Qed.

(** X16.  The size trigger does not fire once only: with no drain in
    between, every append from the one that fills the buffer to capacity
    onwards starts a flush of its own, so [n] appends to an empty buffer of
    capacity [c] start [n - (c - 1)] flushes. *)
Theorem every_append_from_capacity_starts_a_flush
        (w : world) (l : logger) (ms : list logMessage) :
  loggerSingleton w = Some l ->
  mu l = false ->
  buffer l = [] ->
  0 < bufferSize l ->
  goroutines (snd (run (appendEach ms) w))
  = (goroutines w
       ++ repeat TFlush
                 (List.length ms - (Z.to_nat (bufferSize l) - 1)))%list.
Proof.
  intros H Hmu Hbuf Hsize. rewrite (run_appendEach ms w l H Hmu).
  unfold appended. cbn [snd goroutines]. rewrite Hbuf. cbn [List.length].
  rewrite (sizeTriggers_count _ _ _ Hsize).
  do 2 f_equal. lia.
Qed.

(** X17.  Single mode end to end: a processed call, then the goroutine it
    started: one request goes to the configured endpoint, and its body is
    the encoding of the record the call built (second clock reading, tag of
    the entry point, message, the slice holding nil); this holds whatever
    the server answers. *)
Theorem single_mode_call_then_delivery
        (w : world) (l : logger) (s : severity) (output : string)
        (d : value) (b : string) :
  loggerSingleton w = Some l ->
  bulk l = false ->
  logLevel l <= LogLevelDebug ->
  s <> FATAL ->
  json_Marshal (recordOf w s output) = Marshalled b ->
  let w1 := snd (run (logd s output d) w) in
  exists t : task,
    goroutines w1 = (goroutines w ++ [t])%list
    /\ requests (snd (run (body t) w1))
       = (requests w ++ [mkRequest (url l) "text/plain" b])%list.
Proof.
  intros H Hb Hle Hs Hm w1. subst w1.
  rewrite logd_is_buildAndShipMessage.
  rewrite (buildAndShipMessage_processed _ _ _ _ _ _ H Hle).
  unfold processed, shipped. rewrite Hb. cbn [snd].
  eexists. split; [reflexivity|]. cbn [body].
  erewrite handleLogMessage_requests; [reflexivity | exact H | exact Hm].
Qed.

(** X18.  Bulk mode end to end: a processed call on an empty buffer, then
    the goroutine it started, then a flush cycle: the call and the append
    issue no request, and the flush posts one whose body is the encoding of
    the record followed by a newline. *)
Theorem bulk_mode_call_then_append_then_flush
        (w : world) (l : logger) (s : severity) (output : string)
        (d : value) (b : string) :
  loggerSingleton w = Some l ->
  bulk l = true ->
  mu l = false ->
  buffer l = [] ->
  logLevel l <= LogLevelDebug ->
  s <> FATAL ->
  json_Marshal (recordOf w s output) = Marshalled b ->
  let w1 := snd (run (logd s output d) w) in
  exists t : task,
    goroutines w1 = (goroutines w ++ [t])%list
    /\ requests (snd (run (body t) w1)) = requests w
    /\ requests (snd (run (body t ;; flush) w1))
       = (requests w ++ [mkRequest (url l) "text/plain" (b ++ nl)])%list.
Proof.
  intros H Hb Hmu Hbuf Hle Hs Hm w1. subst w1.
  rewrite logd_is_buildAndShipMessage.
  rewrite (buildAndShipMessage_processed _ _ _ _ _ _ H Hle).
  unfold processed, shipped. rewrite Hb. cbn [snd].
  eexists. split; [reflexivity|]. cbn [body].
  match goal with
  | |- context [run (handleBulkLogMessage ?m) ?w1] =>
      assert (E : run (handleBulkLogMessage m) w1
                  = (Done tt, appended l w1 [m]))
        by (apply run_handleBulkLogMessage; [exact H | exact Hmu])
  end.
  split.
  - rewrite E. reflexivity.
  - rewrite run_bind, E.
    match goal with
    | |- context [run flush ?w2] =>
        destruct (run_flush w2 (set_buffer (buffer l ++ [recordOf w s output])
                                           l) eq_refl)
          as (_ & _ & E3 & _)
    end.
    { destruct l; assumption. }
    rewrite E3. clear E3 E. unfold flushRequest, appended. cbn [requests].
    rewrite Hbuf. destruct l as [tk lv u bk size fi buf mu0 tg dm].
    cbn [set_buffer buffer url app bulkBody started tick write_stdout
         requests].
    rewrite Hm. reflexivity.
Qed.

End MoreBuffer.

Section MoreBufferSamples.
#[local] Existing Instance Sample.runtime.

Lemma appends_behind_buffered_record :
  let l := set_buffer [Sample.msg "a"] (Sample.batch LogLevelDebug) in
  let w := mkWorld (Some l) [] [] 0 [TStart] in
  fst (run (appendEach [Sample.msg "b"; Sample.msg "c"]) w) = Done tt
  /\ loggerSingleton (snd (run (appendEach [Sample.msg "b"; Sample.msg "c"])
                               w))
     = Some (set_buffer [Sample.msg "a"; Sample.msg "b"; Sample.msg "c"] l)
  /\ stdout (snd (run (appendEach [Sample.msg "b"; Sample.msg "c"]) w)) = []
  /\ requests (snd (run (appendEach [Sample.msg "b"; Sample.msg "c"]) w))
     = [].
Proof.
  apply (@appends_extend_buffer_in_order Sample.runtime
           (mkWorld (Some (set_buffer [Sample.msg "a"]
                                      (Sample.batch LogLevelDebug)))
                    [] [] 0 [TStart])
           (set_buffer [Sample.msg "a"] (Sample.batch LogLevelDebug))
           [Sample.msg "b"; Sample.msg "c"]).
  - reflexivity.
  - reflexivity.
Defined.

Lemma appends_beyond_capacity_on_sample :
  goroutines (snd (run (appendEach (repeat (Sample.msg "a") 1002))
                       (Sample.bulkMode LogLevelDebug)))
  = [TStart; TFlush; TFlush; TFlush].
Proof.
  apply (@every_append_from_capacity_starts_a_flush Sample.runtime
           (Sample.bulkMode LogLevelDebug) (Sample.batch LogLevelDebug)
           (repeat (Sample.msg "a") 1002)).
  - reflexivity.
  - reflexivity.
  - reflexivity.
  - reflexivity.
Defined.

Lemma warn_delivered_on_sample :
  let w1 := snd (run (logd WARN "disk low" VNil)
                     (Sample.singleMode LogLevelDebug)) in
  exists t : task,
    goroutines w1 = [t]
    /\ requests (snd (run (body t) w1))
       = [mkRequest "https://logs-01.loggly.com/inputs/abc/tag/svc/"
                    "text/plain" "disk low"].
Proof.
  apply (@single_mode_call_then_delivery Sample.runtime
           (Sample.singleMode LogLevelDebug) (Sample.single LogLevelDebug)
           WARN "disk low" VNil "disk low").
  - reflexivity.
  - reflexivity.
  - vm_compute; discriminate.
  - discriminate.
  - reflexivity.
Defined.

Lemma info_batched_on_sample :
  let w1 := snd (run (logd INFO "a" VNil) (Sample.bulkMode LogLevelDebug)) in
  exists t : task,
    goroutines w1 = [TStart; t]
    /\ requests (snd (run (body t) w1)) = []
    /\ requests (snd (run (body t ;; flush) w1))
       = [mkRequest "https://logs-01.loggly.com/bulk/abc/tag/svc/"
                    "text/plain" ("a" ++ nl)%string].
Proof.
  apply (@bulk_mode_call_then_append_then_flush Sample.runtime
           (Sample.bulkMode LogLevelDebug) (Sample.batch LogLevelDebug)
           INFO "a" VNil "a").
  - reflexivity.
  - reflexivity.
  - reflexivity.
  - reflexivity.
  - vm_compute; discriminate.
  - discriminate.
  - reflexivity.
Defined.

End MoreBufferSamples.

(* ================================================================== *)
(** ** More under interleaving *)

Section Exploring.
Context {R : Runtime}.
Import Interleaving.

Lemma step_successor (i : nat) (c c' : config) :
  step i c = Some c' -> In c' (successors c).
Proof.
  intro H. unfold successors. apply in_flat_map. exists i. split.
  - apply in_seq. split; [lia|]. cbn.
    unfold step in H. destruct (dead c); [discriminate|].
    destruct (nth_error (threads c) i) as [p |] eqn:E; [| discriminate].
    apply nth_error_Some. congruence.
  - rewrite H. left. reflexivity.
Qed.

Lemma exec_frontier (schedule : list nat) (c c' : config) :
  exec schedule c = Some c' -> In c' (frontier (List.length schedule) c).
Proof.
  revert c.
  induction schedule as [| i rest IH]; intros c H; cbn in *.
  - left. congruence.
  - destruct (step i c) as [c1 |] eqn:E; [| discriminate].
    apply in_flat_map. exists c1. split.
    + eapply step_successor. exact E.
    + apply IH. exact H.
Qed.

Lemma flat_map_twice {A B C : Type} (f : A -> list B) (g : B -> list C)
      (l : list A) :
  flat_map g (flat_map f l) = flat_map (fun x => flat_map g (f x)) l.
Proof.
  induction l as [| x l IH]; cbn; [reflexivity|].
  rewrite flat_map_app, IH. reflexivity.
Qed.

Lemma frontier_plus (n k : nat) (c : config) :
  frontier (n + k) c = flat_map (frontier k) (frontier n c).
Proof.
  revert c.
  induction n as [| n IH]; intro c; cbn.
  - rewrite app_nil_r. reflexivity.
  - rewrite flat_map_twice. apply flat_map_ext. intro c1. apply IH.
Qed.

Lemma frontier_dies (n : nat) (c : config) :
  frontier n c = [] -> forall k, (n <= k)%nat -> frontier k c = [].
Proof.
  intros H k Hk. replace k with (n + (k - n))%nat by lia.
  rewrite frontier_plus, H. reflexivity.
Qed.

(** X19.  Two concurrent appends exclude each other: under every schedule,
    once both goroutines have returned the buffer holds both records, each
    once, in one of the two orders, and the mutex is free. *)
Theorem concurrent_appends_keep_both
        (token : string) (level : Level) (tags : list string)
        (debugMode : bool) (m1 m2 : logMessage)
        (schedule : list nat) (c : config) :
  exec schedule (appending (bulkLogger token level tags debugMode) m1 m2)
    = Some c ->
  returned 0 c = true ->
  returned 1 c = true ->
  (buffered c = [m1; m2] \/ buffered c = [m2; m1]) /\ holder c = None.
Proof.
  intros Hexec H0 H1.
  apply exec_frontier in Hexec.
  set (c0 := appending (bulkLogger token level tags debugMode) m1 m2) in *.
  assert (Hall : forall k,
             Forall (bothKept m1 m2) (map appendsView (frontier k c0))).
  { intro k.
    do 13 (destruct k as [| k];
           [ frontier_by_computation;
             repeat (apply Forall_cons;
                     [ unfold bothKept; intros Ha Hb;
                       first
                         [ discriminate
                         | split;
                           [ first [left; reflexivity | right; reflexivity]
                           | reflexivity ] ]
                     | ]);
             apply Forall_nil | ]).
    rewrite (frontier_dies 13 c0); [constructor | | lia].
    vm_compute. reflexivity. }
  specialize (Hall (List.length schedule)).
  rewrite Forall_map, Forall_forall in Hall.
  specialize (Hall c Hexec). unfold bothKept, appendsView in Hall.
  apply Hall; assumption.
Qed.

End Exploring.

Section ExploringSamples.
#[local] Existing Instance Sample.runtime.

Lemma appends_in_either_order_on_sample :
  exists c : Interleaving.config,
    Interleaving.exec [1; 1; 1; 1; 1; 0; 1; 0; 0; 0; 0; 0]%nat
      (appending (bulkLogger "abc" LogLevelDebug ["svc"] true)
                 (Sample.msg "a") (Sample.msg "b")) = Some c
    /\ Interleaving.returned 0 c = true
    /\ Interleaving.returned 1 c = true
    /\ ((Interleaving.buffered c = [Sample.msg "a"; Sample.msg "b"]
         \/ Interleaving.buffered c = [Sample.msg "b"; Sample.msg "a"])
        /\ Interleaving.holder c = None).
Proof.
  eexists.
  split; [vm_compute; reflexivity|].
  split; [vm_compute; reflexivity|].
  split; [vm_compute; reflexivity|].
  apply (@concurrent_appends_keep_both Sample.runtime
           "abc" LogLevelDebug ["svc"] true (Sample.msg "a") (Sample.msg "b")
           [1; 1; 1; 1; 1; 0; 1; 0; 0; 0; 0; 0]%nat).
  - vm_compute. reflexivity.
  - vm_compute. reflexivity.
  - vm_compute. reflexivity.
Defined.

End ExploringSamples.


Lemma exec_app (R : Runtime) (s1 s2 : list nat) (c : Interleaving.config) :
  Interleaving.exec (s1 ++ s2)%list c
  = match Interleaving.exec s1 c with
    | Some c' => Interleaving.exec s2 c'
    | None => None
    end.
Proof.
  revert c. induction s1 as [| i s1 IH]; intro c; cbn; [reflexivity|].
  destruct (Interleaving.step i c); [apply IH | reflexivity].
Qed.

(** X20.  Two flush cycles that overlap ship a record twice: when both take
    their snapshot before either clears the buffer, both requests carry the
    encoding of the buffered record. *)
Theorem overlapping_drains_ship_record_twice
        (R : Runtime) (token : string) (level : Level) (tags : list string)
        (debugMode : bool) (m : logMessage) (b : string) :
  json_Marshal m = Marshalled b ->
  option_map Interleaving.payloads
    (Interleaving.exec [0; 0; 0; 1; 1; 1; 0; 0; 0; 1; 1; 1]%nat
       (draining (bulkLogger token level tags debugMode) m))
  = Some [(b ++ nl)%string; (b ++ nl)%string].
Proof.
  destruct R as [clock marshal post sprintf plusv]. cbn [json_Marshal].
  intro Hm.
  change [0; 0; 0; 1; 1; 1; 0; 0; 0; 1; 1; 1]%nat
    with ([0; 0] ++ [0; 1; 1] ++ [1; 0; 0; 0; 1; 1; 1])%list%nat.
  rewrite exec_app. exec_by_computation. rewrite Hm.
  rewrite exec_app. exec_by_computation. rewrite Hm.
  vm_compute. reflexivity.
Qed.

Lemma overlapping_drains_on_sample :
  option_map Interleaving.payloads
    (Interleaving.exec (R := Sample.runtime)
       [0; 0; 0; 1; 1; 1; 0; 0; 0; 1; 1; 1]%nat
       (draining (R := Sample.runtime)
                 (bulkLogger "abc" LogLevelDebug ["svc"] true)
                 (Sample.msg "a")))
  = Some [("a" ++ nl)%string; ("a" ++ nl)%string].
Proof.
  apply (@overlapping_drains_ship_record_twice Sample.runtime
           "abc" LogLevelDebug ["svc"] true (Sample.msg "a") "a").
  reflexivity.
Defined.
Section Racing.
Context {R : Runtime}.
Import Interleaving.

(** X21.  [SetupLogger] is first-writer-wins only for calls made one after
    another.  Two first calls that both test the nil pointer before either
    assigns it both go on: the logger of the later assignment replaces the
    other and two [start] goroutines run; and when the assignments come
    before the endpoints are written, the endpoint left in the logger can
    carry the token of one call and the tags of the other. *)
Theorem concurrent_first_setups_both_install
        (token1 : string) (level1 : Level) (tags1 : list string)
        (debug1 : bool)
        (token2 : string) (level2 : Level) (tags2 : list string)
        (debug2 : bool) :
  let c0 := configuring token1 level1 tags1 debug1
                        token2 level2 tags2 debug2 in
  option_map (fun c => (loggerSingleton (shared c), goroutines (shared c)))
             (exec [0; 1; 0; 0; 0; 0; 1; 1; 1; 1]%nat c0)
  = Some (Some (bulkLogger token2 level2 tags2 debug2), [TStart; TStart])
  /\ option_map (fun c => option_map (fun l => (token l, tags l, url l))
                                     (loggerSingleton (shared c)))
                (exec [0; 1; 0; 1; 1; 1; 1; 0; 0; 0]%nat c0)
     = Some (Some (token2, tags2, endpoint token1 tags2 true)).
Proof.
  split; vm_compute; reflexivity.
Qed.

End Racing.
